(** * monk-ftp: the FTP-backed FUSE adapter [src/utils/ftp-fuse-mount.py]

    A shallow embedding of [FtpFuseOperations] and of the Python and
    ftplib primitives it calls, followed by the properties of the
    translation layer: listing parsing, directory caching, attribute
    synthesis, whole-object read and write, and the translation of
    protocol failures into filesystem error codes.

    Conventions of the embedding.
    - A Python [str] is a Rocq [string] whose characters are the code
      points U+0000..U+00FF, one [ascii] per code point.
    - A Python [bytes] or [bytearray] is a [list byte].
    - Python integers are [Z].
    - An exception is a value of [exn]; code that may raise lives in the
      monad [M], which threads the state of the adapter, of the remote
      endpoint, of the wall clock and of the open sessions.
    - Diagnostic [print] calls are not modelled. *)

From Stdlib Require Import ZArith NArith.
From Stdlib.Strings Require Import Byte Ascii String.
From stdpp Require Import gmap strings list pretty.

Local Open Scope string_scope.
Local Open Scope list_scope.
Local Open Scope Z_scope.

(** ** Python built-ins on [str] *)

Module Py.

Definition ord (c : ascii) : N := N_of_ascii c.

(** [ch.isspace()] for a code point below U+0100: the ASCII controls
    TAB..CR and FS..US, SPACE, NEL (U+0085) and NBSP (U+00A0). *)
Definition isspace (c : ascii) : bool :=
  let n := ord c in
  ((9 <=? n) && (n <=? 13) || (28 <=? n) && (n <=? 32)
   || (n =? 133) || (n =? 160))%N.

(** Removal of the leading and of the trailing characters that satisfy
    [sp]. *)
Fixpoint lstrip_by (sp : ascii → bool) (s : string) : string :=
  match s with
  | String c r => if sp c then lstrip_by sp r else s
  | EmptyString => EmptyString
  end.

Fixpoint rstrip_by (sp : ascii → bool) (s : string) : string :=
  match s with
  | String c r =>
      match rstrip_by sp r with
      | EmptyString => if sp c then EmptyString else String c EmptyString
      | r' => String c r'
      end
  | EmptyString => EmptyString
  end.

Definition lstrip (s : string) : string := lstrip_by isspace s.
Definition rstrip (s : string) : string := rstrip_by isspace s.

(** [s.strip()] *)
Definition strip (s : string) : string := lstrip (rstrip s).

(** The maximal whitespace-free prefix of [s] and what follows it. *)
Fixpoint token (s : string) : string * string :=
  match s with
  | String c r =>
      if isspace c then (EmptyString, s)
      else let '(t, u) := token r in (String c t, u)
  | EmptyString => (EmptyString, EmptyString)
  end.

(** [s.split(None, maxsplit)]: runs of whitespace separate the fields,
    leading whitespace is dropped, and once [maxsplit] fields have been
    cut the rest of the string, minus its leading whitespace, is the
    last field (its trailing whitespace is kept). *)
Fixpoint split (maxsplit : nat) (s : string) {struct maxsplit} : list string :=
  match lstrip s with
  | EmptyString => []
  | r =>
      match maxsplit with
      | O => [r]
      | S n => let '(t, u) := token r in t :: split n u
      end
  end.

(** [s.split()]: no bound on the number of fields. *)
Definition split_all (s : string) : list string := split (String.length s) s.

(** [s.startswith(p)] *)
Definition startswith (s p : string) : bool := String.prefix p s.

(** [sub in s] *)
Fixpoint contains (sub s : string) : bool :=
  String.prefix sub s
  || match s with
     | String _ r => contains sub r
     | EmptyString => false
     end.

(** Decimal digits below U+0100 are '0'..'9'. *)
Definition isdecimal_char (c : ascii) : bool :=
  ((48 <=? ord c) && (ord c <=? 57))%N.

(** Characters with the Unicode property Numeric_Type=Digit or Decimal
    below U+0100: '0'..'9' and the superscripts U+00B2, U+00B3, U+00B9. *)
Definition isdigit_char (c : ascii) : bool :=
  (isdecimal_char c || (ord c =? 178) || (ord c =? 179) || (ord c =? 185))%N.

(** [s.isdigit()]: at least one character, all of them digits. *)
Definition isdigit (s : string) : bool :=
  match s with
  | EmptyString => false
  | _ => forallb isdigit_char (list_ascii_of_string s)
  end.

Definition digit_value (c : ascii) : Z := Z.of_N (ord c) - 48.

(** The digits of an integer literal after the first one: decimal
    digits, single underscores allowed between two digits. *)
Fixpoint int_digits (acc : Z) (after_underscore : bool) (s : string) : option Z :=
  match s with
  | EmptyString => if after_underscore then None else Some acc
  | String c r =>
      if isdecimal_char c then int_digits (10 * acc + digit_value c) false r
      else if Ascii.eqb c "_" then
        if after_underscore then None else int_digits acc true r
      else None
  end.

Definition int_unsigned (s : string) : option Z :=
  match s with
  | String c r => if isdecimal_char c then int_digits (digit_value c) false r else None
  | EmptyString => None
  end.

(** The blanks [int] ignores around a literal: those of [isspace] but
    for the controls FS..US. *)
Definition int_blank (c : ascii) : bool :=
  let n := ord c in
  ((9 <=? n) && (n <=? 13) || (n =? 32) || (n =? 133) || (n =? 160))%N.

(** The interpreter's cap on the digits of a decimal literal,
    [sys.int_info.default_max_str_digits]. *)
Definition max_str_digits : N := 4300.

(** The digits of a literal: underscores, sign and blanks do not count,
    leading zeros do. *)
Definition digit_count (s : string) : N :=
  N.of_nat (length (List.filter isdecimal_char (list_ascii_of_string s))).

(** A literal without its sign: refused when it has more than
    [max_str_digits] digits. *)
Definition int_capped (s : string) : option Z :=
  if (max_str_digits <? digit_count s)%N then None else int_unsigned s.

(** [int(s)] in base 10; [None] stands for [ValueError]. Only decimal
    digits are accepted: [int] rejects the superscript digits that
    [isdigit] accepts, and a literal of more than 4300 digits. *)
Definition int (s : string) : option Z :=
  match lstrip_by int_blank (rstrip_by int_blank s) with
  | String "+" r => int_capped r
  | String "-" r => Z.opp <$> int_capped r
  | t => int_capped t
  end.

(** [seq[i:j]] with Python's treatment of negative and out-of-range
    bounds. *)
Definition slice_bound (len i : Z) : Z :=
  if i <? 0 then Z.max 0 (i + len) else Z.min i len.

Definition slice {A} (l : list A) (i j : Z) : list A :=
  let len := Z.of_nat (length l) in
  let lo := slice_bound len i in
  let hi := slice_bound len j in
  take (Z.to_nat (hi - lo)) (drop (Z.to_nat lo) l).

(** [s.encode('utf-8')] for code points below U+0100. *)
Definition utf8_char (c : ascii) : list byte :=
  let n := ord c in
  if (n <? 128)%N then [byte_of_ascii c]
  else
    match Byte.of_N (N.lor 192 (N.shiftr n 6)), Byte.of_N (N.lor 128 (N.land n 63)) with
    | Some hi, Some lo => [hi; lo]
    | _, _ => []
    end.

Definition encode_utf8 (s : string) : list byte :=
  flat_map utf8_char (list_ascii_of_string s).

End Py.

(** ** Exceptions, error codes and mode bits *)

(** The exceptions the adapter distinguishes. [error_perm resp] is
    [ftplib.error_perm] and [resp], the reply line, is its [str(e)].
    [FuseOSError] is fusepy's subclass of [OSError], hence of
    [Exception]. [Exception what] is any other instance of [Exception]
    (ftplib's [error_temp], [error_reply] and [error_proto], [OSError],
    [EOFError], [ValueError], [AttributeError], ...). *)
Inductive exn : Type :=
| error_perm (resp : string)
| FuseOSError (errno : Z)
| Exception (what : string).

Inductive result (A : Type) : Type :=
| Return (a : A)
| Raise (e : exn).
Arguments Return {A} a.
Arguments Raise {A} e.

Module errno.
Definition ENOENT : Z := 2.
Definition EIO : Z := 5.
Definition EACCES : Z := 13.
Definition ECONNREFUSED : Z := 111.
End errno.

Module stat.
Definition S_IFDIR : Z := 16384.  (* 0o040000 *)
Definition S_IFREG : Z := 32768.  (* 0o100000 *)
End stat.

Definition o755 : Z := 493.
Definition o644 : Z := 420.

(** ** The data model *)

(** The value stored per name by [_ftp_list_to_files]. *)
Record entry : Type := Entry {
  is_dir : bool;
  size : Z;
  permissions : string;
  mode : Z;
  nlink : Z;
  mtime : Z;
  ctime : Z;
  atime : Z
}.

(** The attribute record returned by [getattr]. *)
Record attributes : Type := Attributes {
  st_mode : Z;
  st_nlink : Z;
  st_size : Z;
  st_ctime : Z;
  st_mtime : Z;
  st_atime : Z
}.

(** A Python [dict] with [str] keys, in insertion order: assigning to a
    key that is present replaces the value and keeps the key's place. *)
Fixpoint dict_set {V} (d : list (string * V)) (k : string) (v : V) : list (string * V) :=
  match d with
  | [] => [(k, v)]
  | (k', v') :: r =>
      if String.eqb k' k then (k, v) :: r else (k', v') :: dict_set r k v
  end.

Fixpoint dict_get {V} (d : list (string * V)) (k : string) : option V :=
  match d with
  | [] => None
  | (k', v') :: r => if String.eqb k' k then Some v' else dict_get r k
  end.

Definition dict_keys {V} (d : list (string * V)) : list string := map fst d.

(** What a callback of [retrbinary] or a caller may hold: text or binary
    data. Only [str] has the method [encode]. *)
Inductive pyobject : Type :=
| PyStr (s : string)
| PyBytes (b : list byte).

(** The fields of [self]. *)
Record FtpFuseOperations : Type := Self {
  ftp_host : string;
  ftp_port : Z;
  ftp_user : string;
  ftp_pass : string;
  _dir_cache : gmap string (list string)
}.

Definition __init__ : FtpFuseOperations :=
  {| ftp_host := "localhost"; ftp_port := 2121; ftp_user := "root";
     ftp_pass := "fake.jwt.token"; _dir_cache := ∅ |}.

(** ** The environment: remote endpoint and clock *)

(** How a call of the protocol client fails: a permanent (5xx) reply,
    raised as [ftplib.error_perm], or anything else (a transient or
    malformed reply, a socket error, an illegal command line). *)
Inductive failure : Type :=
| perm_reply (resp : string)
| fault (what : string).

Definition reply (A : Type) : Type := (failure + A)%type.

(** The calls the adapter makes on an [ftplib.FTP] object, as recorded in
    the trace of a run. *)
Inductive command : Type :=
| CONNECT (host : string) (port : Z)
| LOGIN (user passwd : string)
| CWD (path : string)
| RETRLINES (cmd : string)
| RETRBINARY (cmd : string)
| STORBINARY (cmd : string) (data : list byte)
| DELETE (path : string)
| SENDCMD (cmd : string)
| QUIT.

(** The capabilities the adapter consumes. [W] is the state of the
    outside world. [remote_connect] answers for the whole of
    [ftp.connect]: the transport connection and the greeting read on it;
    [remote_transport] tells whether the transport connection gets made,
    which is also the case when [connect] then raises on the greeting.
    [remote_retrbinary] answers with the chunks handed to
    the callback, in order, and with the failure, if any, that ends the
    transfer; a command refused before any data is [([], Some f)].
    [clock n] is the [n]-th reading of [int(datetime.now().timestamp())];
    [strptime_timestamp s] is
    [int(datetime.strptime(s, '%Y%m%d%H%M%S').timestamp())], [None] when
    [strptime] raises. *)
Class Host (W : Type) : Type := {
  remote_connect : string → Z → W → reply unit * W;
  remote_transport : string → Z → W → bool;
  remote_login : string → string → W → reply unit * W;
  remote_cwd : string → W → reply unit * W;
  remote_retrlines : string → W → reply (list string) * W;
  remote_retrbinary : string → W → (list (list byte) * option failure) * W;
  remote_storbinary : string → list byte → W → reply unit * W;
  remote_delete : string → W → reply unit * W;
  remote_sendcmd : string → W → reply string * W;
  remote_quit : W → reply unit * W;
  clock : nat → Z;
  strptime_timestamp : string → option Z
}.

(** ** The state and exception monad *)

Record machine (W : Type) : Type := Machine {
  self : FtpFuseOperations;
  world : W;
  sessions : nat;        (* connections opened and not yet closed *)
  trace : list (command * option failure);
                         (* protocol calls made so far, oldest first, each
                            with the failure the protocol answered, if any *)
  ticks : nat            (* clock readings taken so far *)
}.
Arguments Machine {W}.
Arguments self {W}.
Arguments world {W}.
Arguments sessions {W}.
Arguments trace {W}.
Arguments ticks {W}.

Definition M (W A : Type) : Type := machine W → result A * machine W.

Definition raise {W A} (e : exn) : M W A := λ m, (Raise e, m).

Definition try_except {W A} (body : M W A) (handler : exn → M W A) : M W A :=
  λ m, match body m with
       | (Return a, m') => (Return a, m')
       | (Raise e, m') => handler e m'
       end.

Global Instance M_ret {W} : MRet (M W) := λ A a m, (Return a, m).

Global Instance M_bind {W} : MBind (M W) := λ A B f c m,
  match c m with
  | (Return a, m') => f a m'
  | (Raise e, m') => (Raise e, m')
  end.

Definition exn_of_failure (f : failure) : exn :=
  match f with
  | perm_reply resp => error_perm resp
  | fault what => Exception what
  end.

(** ** The methods of [ftplib.FTP] the adapter calls *)

Section Adapter.
Context {W : Type} `{Host W}.

Definition get_self : M W FtpFuseOperations := λ m, (Return (self m), m).

(** [datetime.now().timestamp()] truncated by [int]. *)
Definition now : M W Z := λ m,
  (Return (clock (ticks m)),
   Machine (self m) (world m) (sessions m) (trace m) (S (ticks m))).

(** One call on the client: the world answers, the call is recorded
    with its outcome, and on success [settle] adjusts the number of
    open sessions. *)
Definition call {A} (c : command) (ask : W → reply A * W) (settle : nat → nat)
  : M W A := λ m,
  let '(r, w) := ask (world m) in
  match r with
  | inr a =>
      (Return a,
       Machine (self m) w (settle (sessions m)) (trace m ++ [(c, None)]) (ticks m))
  | inl f =>
      (Raise (exn_of_failure f),
       Machine (self m) w (sessions m) (trace m ++ [(c, Some f)]) (ticks m))
  end.

(** [ftp.connect(host, port)] opens the control connection and reads the
    greeting. A [connect] that raises leaves the connection open when
    the transport connection had been made: [connect] does not close the
    socket it created when the greeting is refused. *)
Definition connect (host : string) (port : Z) : M W unit := λ m,
  let '(r, w) := remote_connect host port (world m) in
  match r with
  | inr a =>
      (Return a,
       Machine (self m) w (S (sessions m))
               (trace m ++ [(CONNECT host port, None)]) (ticks m))
  | inl f =>
      (Raise (exn_of_failure f),
       Machine (self m) w
               (if remote_transport host port (world m) then S (sessions m)
                else sessions m)
               (trace m ++ [(CONNECT host port, Some f)]) (ticks m))
  end.

Definition login (user passwd : string) : M W unit :=
  call (LOGIN user passwd) (remote_login user passwd) id.

Definition cwd (path : string) : M W unit :=
  call (CWD path) (remote_cwd path) id.

(** [ftp.retrlines(cmd, listing.append)] with [listing] empty before
    the call: the lines received, in order. *)
Definition retrlines (cmd : string) : M W (list string) :=
  call (RETRLINES cmd) (remote_retrlines cmd) id.

(** The callback of [retrbinary] run on the chunks received, each a
    [bytes] object; [acc] is the state the callback closes over. An
    exception of the callback ends the transfer. *)
Fixpoint feed {S} (callback : S → pyobject → result S) (acc : S)
    (chunks : list (list byte)) : result S :=
  match chunks with
  | [] => Return acc
  | c :: rest =>
      match callback acc (PyBytes c) with
      | Return acc' => feed callback acc' rest
      | Raise e => Raise e
      end
  end.

(** [ftp.retrbinary(cmd, callback)]. When the callback raises, the
    transfer is abandoned and no reply is read. *)
Definition retrbinary {S} (cmd : string) (callback : S → pyobject → result S)
    (acc : S) : M W S := λ m,
  let '((chunks, final), w) := remote_retrbinary cmd (world m) in
  let m' outcome :=
    Machine (self m) w (sessions m) (trace m ++ [(RETRBINARY cmd, outcome)]) (ticks m) in
  match feed callback acc chunks with
  | Raise e => (Raise e, m' None)
  | Return acc' =>
      match final with
      | Some f => (Raise (exn_of_failure f), m' (Some f))
      | None => (Return acc', m' None)
      end
  end.

(** [ftp.storbinary(cmd, BytesIO(data))] *)
Definition storbinary (cmd : string) (data : list byte) : M W unit :=
  call (STORBINARY cmd data) (remote_storbinary cmd data) id.

Definition delete (path : string) : M W unit :=
  call (DELETE path) (remote_delete path) id.

Definition sendcmd (cmd : string) : M W string :=
  call (SENDCMD cmd) (remote_sendcmd cmd) id.

(** [ftp.quit()] sends QUIT and, when the reply is good, closes the
    connection. *)
Definition quit : M W unit :=
  call QUIT remote_quit pred.

(** [int(s)] and [l[i]] as statements that may raise. *)
Definition int_ (s : string) : M W Z :=
  match Py.int s with
  | Some z => mret z
  | None => raise (Exception "ValueError")
  end.

Definition item (l : list string) (i : nat) : M W string :=
  match l !! i with
  | Some x => mret x
  | None => raise (Exception "IndexError")
  end.

(** ** [FtpFuseOperations] *)

Definition _get_ftp_connection : M W unit :=
  try_except
    (s ← get_self;
     connect (ftp_host s) (ftp_port s);;
     login (ftp_user s) (ftp_pass s))
    (λ _, raise (FuseOSError errno.ECONNREFUSED)).

(** The body of the loop of [_ftp_list_to_files]. *)
Definition _ftp_list_to_files_line (files : list (string * entry)) (line : string)
  : M W (list (string * entry)) :=
  if String.eqb (Py.strip line) "" then mret files
  else
    let parts := Py.split 8 line in
    if (length parts <? 9)%nat then mret files
    else
      let permissions := nth 0 parts "" in
      size ← (if Py.isdigit (nth 4 parts "") then int_ (nth 4 parts "") else mret 0);
      let name := nth 8 parts "" in
      let is_dir := Py.startswith permissions "d" in
      mtime ← now;
      ctime ← now;
      atime ← now;
      mret (dict_set files name
              {| is_dir := is_dir; size := size; permissions := permissions;
                 mode := if is_dir then stat.S_IFDIR else stat.S_IFREG;
                 nlink := if is_dir then 2 else 1;
                 mtime := mtime; ctime := ctime; atime := atime |}).

Fixpoint for_each {A B} (body : A → B → M W A) (acc : A) (l : list B) : M W A :=
  match l with
  | [] => mret acc
  | x :: r => acc' ← body acc x; for_each body acc' r
  end.

Definition _ftp_list_to_files (ftp_listing : list string) : M W (list (string * entry)) :=
  for_each _ftp_list_to_files_line [] ftp_listing.

Definition cache_dir (path : string) (file_names : list string) : M W unit := λ m,
  let s := self m in
  (Return (),
   Machine (Self (ftp_host s) (ftp_port s) (ftp_user s) (ftp_pass s)
                 (<[path := file_names]> (_dir_cache s)))
           (world m) (sessions m) (trace m) (ticks m)).

Definition readdir (path : string) : M W (list string) :=
  try_except
    (s ← get_self;
     match _dir_cache s !! path with
     | Some file_names => mret file_names
     | None =>
         _get_ftp_connection;;
         (if negb (String.eqb path "/") then cwd path else mret ());;
         listing ← retrlines "LIST";
         quit;;
         files ← _ftp_list_to_files listing;
         let file_names := "." :: ".." :: dict_keys files in
         cache_dir path file_names;;
         mret file_names
     end)
    (λ e, match e with
          | error_perm resp =>
              if Py.contains "550" resp then raise (FuseOSError errno.ENOENT)
              else if Py.contains "530" resp then raise (FuseOSError errno.EACCES)
              else raise (FuseOSError errno.EIO)
          | _ => raise (FuseOSError errno.EIO)
          end).

Definition getattr (path : string) : M W attributes :=
  try_except
    (if String.eqb path "/" then
       ctime ← now;
       mtime ← now;
       atime ← now;
       mret {| st_mode := Z.lor stat.S_IFDIR o755; st_nlink := 2; st_size := 0;
               st_ctime := ctime; st_mtime := mtime; st_atime := atime |}
     else
       _get_ftp_connection;;
       file_size ←
         try_except
           (size_resp ← sendcmd ("SIZE " +:+ path);
            if Py.startswith size_resp "213"
            then field ← item (Py.split_all size_resp) 1; int_ field
            else mret 0)
           (λ _, mret 0);
       mtime ←
         try_except
           (mdtm_resp ← sendcmd ("MDTM " +:+ path);
            if Py.startswith mdtm_resp "213"
            then
              timestamp_str ← item (Py.split_all mdtm_resp) 1;
              match strptime_timestamp timestamp_str with
              | Some t => mret t
              | None => raise (Exception "ValueError")
              end
            else now)
           (λ _, now);
       quit;;
       mret {| st_mode := Z.lor stat.S_IFREG o644; st_nlink := 1; st_size := file_size;
               st_ctime := mtime; st_mtime := mtime; st_atime := mtime |})
    (λ e, match e with
          | error_perm resp =>
              if Py.contains "550" resp then raise (FuseOSError errno.ENOENT)
              else if Py.contains "530" resp then raise (FuseOSError errno.EACCES)
              else raise (FuseOSError errno.EIO)
          | _ => raise (FuseOSError errno.ENOENT)
          end).

(** The callback of [read]: [content.extend(data.encode('utf-8'))]. *)
Definition store_data (content : list byte) (data : pyobject) : result (list byte) :=
  match data with
  | PyStr s => Return (content ++ Py.encode_utf8 s)%list
  | PyBytes _ => Raise (Exception "AttributeError")
  end.

Definition read (path : string) (size offset : Z) : M W (list byte) :=
  try_except
    (_get_ftp_connection;;
     content ← retrbinary ("RETR " +:+ path) store_data [];
     quit;;
     mret (Py.slice content offset (offset + size)))
    (λ e, match e with
          | error_perm resp =>
              if Py.contains "550" resp then raise (FuseOSError errno.ENOENT)
              else raise (FuseOSError errno.EIO)
          | _ => raise (FuseOSError errno.EIO)
          end).

Definition write (path : string) (data : list byte) (offset : Z) : M W Z :=
  try_except
    (_get_ftp_connection;;
     storbinary ("STOR " +:+ path) data;;
     quit;;
     mret (Z.of_nat (length data)))
    (λ e, match e with
          | error_perm resp =>
              if Py.contains "550" resp then raise (FuseOSError errno.EACCES)
              else raise (FuseOSError errno.EIO)
          | _ => raise (FuseOSError errno.EIO)
          end).

Definition truncate (path : string) (length : Z) : M W unit := mret ().

Definition unlink (path : string) : M W unit :=
  try_except
    (_get_ftp_connection;;
     delete path;;
     quit)
    (λ e, match e with
          | error_perm resp =>
              if Py.contains "550" resp then raise (FuseOSError errno.ENOENT)
              else raise (FuseOSError errno.EACCES)
          | _ => raise (FuseOSError errno.EIO)
          end).

(** The public operations as data, and a run of one of them reduced
    to the exception it raises, if any. *)
Inductive operation : Type :=
| Readdir (path : string)
| Getattr (path : string)
| Read (path : string) (size offset : Z)
| Write (path : string) (data : list byte) (offset : Z)
| Unlink (path : string).

Definition raised {A} (r : result A * machine W) : option exn * machine W :=
  match r with
  | (Return _, m) => (None, m)
  | (Raise e, m) => (Some e, m)
  end.

Definition run (op : operation) (m : machine W) : option exn * machine W :=
  match op with
  | Readdir path => raised (readdir path m)
  | Getattr path => raised (getattr path m)
  | Read path size offset => raised (read path size offset m)
  | Write path data offset => raised (write path data offset m)
  | Unlink path => raised (unlink path m)
  end.

End Adapter.

(** ** A reference endpoint *)

(** Modelled from the spec: the remote transfer-protocol endpoint and the
    protocol client, which are not part of the adapter's source. The
    endpoint is the object store of the spec's protocol-facing contract
    ([connect], [login], [list], [retrieve], [store], [delete],
    [size_query], [mtime_query], [close]): [store] replaces the whole
    object, [retrieve] streams the whole object in blocks of at most 8192
    bytes, [delete] removes it, and a path that is absent is answered by
    a 550 reply. *)
Record endpoint : Type := Endpoint {
  reachable : bool;                       (* the transport connection can be made *)
  accepts_login : bool;                   (* the credentials are accepted *)
  writable : bool;                        (* STOR is permitted *)
  objects : gmap string (list byte);      (* the remote objects, by path *)
  listings : gmap string (list string);   (* the raw LIST lines of each directory *)
  stamp : string;                         (* the timestamp MDTM reports *)
  current_dir : string
}.

Module Endpoint.

Definition CR : string := String "013" "".
Definition LF : string := String "010" "".

(** The client refuses to send a line that holds a line break. *)
Definition legal (line : string) : bool :=
  negb (Py.contains CR line || Py.contains LF line).

(** The block size of [ftplib]'s transfers. *)
Definition blocksize : nat := Z.to_nat 8192.

Fixpoint blocks (fuel blocksize : nat) (data : list byte) : list (list byte) :=
  match fuel, data with
  | S fuel', _ :: _ => take blocksize data :: blocks fuel' blocksize (drop blocksize data)
  | _, _ => []
  end.

Definition argument (verb cmd : string) : option string :=
  if String.prefix verb cmd
  then Some (String.substring (String.length verb) (String.length cmd - String.length verb) cmd)
  else None.

Definition with_objects (objs : gmap string (list byte)) (e : endpoint) : endpoint :=
  Endpoint (reachable e) (accepts_login e) (writable e) objs (listings e) (stamp e)
           (current_dir e).

Definition with_current_dir (d : string) (e : endpoint) : endpoint :=
  Endpoint (reachable e) (accepts_login e) (writable e) (objects e) (listings e) (stamp e) d.

Definition connect (host : string) (port : Z) (e : endpoint) : reply unit * endpoint :=
  if reachable e then (inr (), with_current_dir "/" e)
  else (inl (fault "ConnectionRefusedError"), e).

Definition login (user passwd : string) (e : endpoint) : reply unit * endpoint :=
  if negb (legal user && legal passwd) then (inl (fault "ValueError"), e)
  else if accepts_login e then (inr (), e)
  else (inl (perm_reply "530 Login incorrect."), e).

Definition cwd (path : string) (e : endpoint) : reply unit * endpoint :=
  if negb (legal path) then (inl (fault "ValueError"), e)
  else
    match listings e !! path with
    | Some _ => (inr (), with_current_dir path e)
    | None => (inl (perm_reply "550 Failed to change directory."), e)
    end.

Definition retrlines (cmd : string) (e : endpoint) : reply (list string) * endpoint :=
  if String.eqb cmd "LIST" then (inr (default [] (listings e !! current_dir e)), e)
  else (inl (perm_reply "500 Unknown command."), e).

Definition retrbinary (cmd : string) (e : endpoint)
  : (list (list byte) * option failure) * endpoint :=
  if negb (legal cmd) then (([], Some (fault "ValueError")), e)
  else
    match argument "RETR " cmd with
    | Some path =>
        match objects e !! path with
        | Some content => ((blocks (length content) blocksize content, None), e)
        | None => (([], Some (perm_reply "550 Failed to open file.")), e)
        end
    | None => (([], Some (perm_reply "500 Unknown command.")), e)
    end.

(** The bytes of a Python object number less than [sys.maxsize], 2^63 - 1 at
    most; no longer sequence can be handed over for transfer. *)
Definition sendable (data : list byte) : bool :=
  Z.of_nat (length data) <=? 9223372036854775807.

Definition storbinary (cmd : string) (data : list byte) (e : endpoint)
  : reply unit * endpoint :=
  if negb (legal cmd) then (inl (fault "ValueError"), e)
  else if negb (sendable data) then (inl (fault "OverflowError"), e)
  else
    match argument "STOR " cmd with
    | Some path =>
        if writable e then (inr (), with_objects (<[path := data]> (objects e)) e)
        else (inl (perm_reply "550 Permission denied."), e)
    | None => (inl (perm_reply "500 Unknown command."), e)
    end.

Definition delete (path : string) (e : endpoint) : reply unit * endpoint :=
  if negb (legal path) then (inl (fault "ValueError"), e)
  else
    match objects e !! path with
    | Some _ => (inr (), with_objects (base.delete path (objects e)) e)
    | None => (inl (perm_reply "550 Delete operation failed."), e)
    end.

Definition sendcmd (cmd : string) (e : endpoint) : reply string * endpoint :=
  if negb (legal cmd) then (inl (fault "ValueError"), e)
  else
    match argument "SIZE " cmd, argument "MDTM " cmd with
    | Some path, _ =>
        match objects e !! path with
        | Some content => (inr ("213 " +:+ pretty (N.of_nat (length content))), e)
        | None => (inl (perm_reply "550 Could not get file size."), e)
        end
    | None, Some path =>
        match objects e !! path with
        | Some _ => (inr ("213 " +:+ stamp e), e)
        | None => (inl (perm_reply "550 Could not get file modification time."), e)
        end
    | None, None => (inl (perm_reply "500 Unknown command."), e)
    end.

Definition quit (e : endpoint) : reply unit * endpoint := (inr (), e).

(** The endpoint as a [Host], for a given clock and a given reading of
    timestamps. *)
Definition host (clk : nat → Z) (strp : string → option Z) : Host endpoint :=
  {| remote_connect := connect; remote_transport := λ _ _ e, reachable e;
     remote_login := login; remote_cwd := cwd;
     remote_retrlines := retrlines; remote_retrbinary := retrbinary;
     remote_storbinary := storbinary; remote_delete := delete;
     remote_sendcmd := sendcmd; remote_quit := quit;
     clock := clk; strptime_timestamp := strp |}.

(** A freshly mounted adapter in front of endpoint [e]. *)
Definition mounted (e : endpoint) : machine endpoint :=
  Machine __init__ e 0 [] 0.

End Endpoint.

(** ** Vocabulary of the properties *)

Section Vocabulary.
Context {W : Type} `{Host W}.

(** Two machines that differ at most in the number of clock readings. *)
Definition same_but_ticks (m m' : machine W) : Prop :=
  self m' = self m ∧ world m' = world m ∧ sessions m' = sessions m
  ∧ trace m' = trace m.

(** The record [getattr] builds for the root, read at tick [t]. *)
Definition root_attributes (t : nat) : attributes :=
  {| st_mode := 16877;  (* 0o040755 *)
     st_nlink := 2; st_size := 0;
     st_ctime := clock t; st_mtime := clock (S t); st_atime := clock (S (S t)) |}.

Definition tick3 (m : machine W) : machine W :=
  Machine (self m) (world m) (sessions m) (trace m) (S (S (S (ticks m)))).

End Vocabulary.

(** A session is opened by a [connect] that succeeds and closed by a
    [quit] that succeeds. *)
Definition opened (ev : command * option failure) : bool :=
  match ev with
  | (CONNECT _ _, None) => true
  | _ => false
  end.

Definition closed (ev : command * option failure) : bool :=
  match ev with
  | (QUIT, None) => true
  | _ => false
  end.

(** What stops an operation between its [connect] and its [quit]: a
    failure answered to a call other than [connect], or, for an operation
    that raises, a retrieval that the protocol did not fail. *)
Definition stopped (ev : command * option failure) : bool :=
  match ev with
  | (CONNECT _ _, _) => false
  | (RETRBINARY _, None) => true
  | (_, Some _) => true
  | (_, None) => false
  end.

(** The calls that establish the session. *)
Definition session_setup (c : command) : bool :=
  match c with
  | CONNECT _ _ | LOGIN _ _ => true
  | _ => false
  end.

(** The error code each operation gives to a failure answered to one of
    its protocol commands, operation by operation. *)
Definition translated (op : operation) (f : failure) : Z :=
  match op, f with
  | Readdir _, perm_reply resp =>
      if Py.contains "550" resp then errno.ENOENT
      else if Py.contains "530" resp then errno.EACCES
      else errno.EIO
  | Readdir _, fault _ => errno.EIO
  | Getattr _, perm_reply resp =>
      if Py.contains "550" resp then errno.ENOENT
      else if Py.contains "530" resp then errno.EACCES
      else errno.EIO
  | Getattr _, fault _ => errno.ENOENT
  | Read _ _ _, perm_reply resp =>
      if Py.contains "550" resp then errno.ENOENT else errno.EIO
  | Read _ _ _, fault _ => errno.EIO
  | Write _ _ _, perm_reply resp =>
      if Py.contains "550" resp then errno.EACCES else errno.EIO
  | Write _ _ _, fault _ => errno.EIO
  | Unlink _, perm_reply resp =>
      if Py.contains "550" resp then errno.ENOENT else errno.EACCES
  | Unlink _, fault _ => errno.EIO
  end.

(** The error code of a failure that is no protocol reply, and of a
    session that could not be established. *)
Definition untranslated (op : operation) : Z :=
  match op with
  | Getattr _ => errno.ENOENT
  | _ => errno.EIO
  end.

(** The name under which [_ftp_list_to_files] files a line, when it does
    not skip the line. *)
Definition line_name (line : string) : option string :=
  if String.eqb (Py.strip line) "" then None
  else
    let parts := Py.split 8 line in
    if (length parts <? 9)%nat then None else Some (nth 8 parts "").

(** The size [_ftp_list_to_files] computes from the fifth field; [None]
    when [int] raises. *)
Definition line_size (line : string) : option Z :=
  let field := nth 4 (Py.split 8 line) "" in
  if Py.isdigit field then Py.int field else Some 0.

(** Entry [e] is the one the loop builds from [line]. *)
Definition describes (line : string) (e : entry) : Prop :=
  let perms := nth 0 (Py.split 8 line) "" in
  permissions e = perms
  ∧ is_dir e = Py.startswith perms "d"
  ∧ line_size line = Some (size e)
  ∧ mode e = (if is_dir e then stat.S_IFDIR else stat.S_IFREG)
  ∧ nlink e = (if is_dir e then 2 else 1).

(** [names] are the names filed from [listing], each once. *)
Definition names_of (listing : list string) (names : list string) : Prop :=
  NoDup names ∧ ∀ n, n ∈ names ↔ Some n ∈ (line_name <$> listing).

(** In [files], every name carries the entry of the last line of
    [listing] filed under it. *)
Definition last_wins (listing : list string) (files : list (string * entry)) : Prop :=
  ∀ n e, dict_get files n = Some e →
    ∃ before line after,
      listing = before ++ line :: after ∧ line_name line = Some n
      ∧ (Some n ∉ (line_name <$> after)) ∧ describes line e.

(** Every cached directory is ['.'], ['..'] and the names of some
    listing. *)
Definition cache_ok (cache : gmap string (list string)) : Prop :=
  ∀ path file_names, cache !! path = Some file_names →
    ∃ listing tail, file_names = "." :: ".." :: tail ∧ names_of listing tail.

(** ** Vocabulary of the further properties *)

(** What is left of a call once the dispatcher has let go of what the
    call returned or raised: the [FTP] object of the call is no longer
    referenced and the interpreter closes its socket, so a session the
    call left open is gone. *)
Definition released {W} (before after : machine W) : machine W :=
  Machine (self after) (world after) (sessions before) (trace after) (ticks after).

(** Several operations, one after the other, whatever each returns or
    raises; the machine they leave. *)
Fixpoint run_all {W} `{Host W} (ops : list operation) (m : machine W) : machine W :=
  match ops with
  | [] => m
  | op :: rest => run_all rest (released m (run op m).2)
  end.

(** The error codes an operation can raise. *)
Definition codes (op : operation) : list Z :=
  match op with
  | Readdir _ | Getattr _ | Unlink _ => [errno.ENOENT; errno.EACCES; errno.EIO]
  | Read _ _ _ => [errno.ENOENT; errno.EIO]
  | Write _ _ _ => [errno.EACCES; errno.EIO]
  end.

(** The protocol calls operation [op] makes for an adapter configured as
    [s]: the session calls with the configured address and credentials,
    and the commands of [op] on its own path. *)
Definition own_command (op : operation) (s : FtpFuseOperations) (c : command) : Prop :=
  match c with
  | CONNECT host port => host = ftp_host s ∧ port = ftp_port s
  | LOGIN user passwd => user = ftp_user s ∧ passwd = ftp_pass s
  | QUIT => True
  | CWD path =>
      match op with
      | Readdir p => path = p ∧ p ≠ "/"
      | _ => False
      end
  | RETRLINES cmd =>
      match op with
      | Readdir _ => cmd = "LIST"
      | _ => False
      end
  | SENDCMD cmd =>
      match op with
      | Getattr p => p ≠ "/" ∧ (cmd = "SIZE " +:+ p ∨ cmd = "MDTM " +:+ p)
      | _ => False
      end
  | RETRBINARY cmd =>
      match op with
      | Read p _ _ => cmd = "RETR " +:+ p
      | _ => False
      end
  | STORBINARY cmd data =>
      match op with
      | Write p d _ => cmd = "STOR " +:+ p ∧ data = d
      | _ => False
      end
  | DELETE path =>
      match op with
      | Unlink p => path = p
      | _ => False
      end
  end.

Definition is_connect (ev : command * option failure) : bool :=
  match ev with
  | (CONNECT _ _, _) => true
  | _ => false
  end.

(** Strings made of the digits '0'..'9' only. *)
Definition decimal_only (s : string) : bool :=
  forallb Py.isdecimal_char (list_ascii_of_string s).

(** The record [getattr] builds for a path other than the root. *)
Definition file_attributes (file_size mtime : Z) : attributes :=
  {| st_mode := 33188;  (* 0o100644 *)
     st_nlink := 1; st_size := file_size;
     st_ctime := mtime; st_mtime := mtime; st_atime := mtime |}.

(** ** Concrete environments *)

Module Sample.

Definition hello : list byte := list_byte_of_string "hello".

(** Two lines share the name [users]; the third has too few fields. *)
Definition root_listing : list string :=
  ["-rw-r--r-- 1 root root 12 Jan 01 00:00 users";
   "garbage";
   "drwxr-xr-x 2 root root 4096 Jan 01 00:00 users";
   "-rw-r--r-- 1 root root 7 Jan 01 00:00 notes.txt"].

(** A size field written with the superscript two, U+00B2. *)
Definition superscript_line : string :=
  "-rw-r--r-- 1 root root " +:+ String "178" "" +:+ " Jan 01 00:00 notes.txt".

(** An endpoint that accepts the session and every command. *)
Definition store : endpoint :=
  {| reachable := true; accepts_login := true; writable := true;
     objects := {[ "/empty" := []; "/data/x" := list_byte_of_string "previous content" ]};
     listings := {[ "/" := root_listing; "/odd" := [superscript_line] ]};
     stamp := "20250825151723"; current_dir := "/" |}.

(** The same endpoint when nothing listens on the port, when STOR is
    refused, and when the credentials are refused. *)
Definition unreachable : endpoint :=
  Endpoint false true true (objects store) (listings store) (stamp store) "/".

Definition read_only : endpoint :=
  Endpoint true true false (objects store) (listings store) (stamp store) "/".

Definition locked : endpoint :=
  Endpoint true false true (objects store) (listings store) (stamp store) "/".

(** A clock that advances one second per reading, and a reading of
    timestamps that gives a fixed instant. *)
Definition host : Host endpoint :=
  Endpoint.host (λ n, 1756135043 + Z.of_nat n) (λ _, Some 1756135043).

End Sample.

(** A line of a listing and a sequence of operations, for the further
    properties. *)
Module Day.

Definition notes_line : string := "-rw-r--r-- 1 root root 7 Jan 01 00:00 notes.txt".

Definition busy : list operation :=
  [Write "/data/x" Sample.hello 0; Unlink "/data/x"; Readdir "/odd"; Getattr "/data/x"].

End Day.

(** A server that lists the directory itself and its parent, as LIST
    does when it is given the option to show every entry. *)
Module Dots.

Definition listing : list string :=
  ["drwxr-xr-x 2 root root 4096 Jan 01 00:00 .";
   "drwxr-xr-x 3 root root 4096 Jan 01 00:00 ..";
   "-rw-r--r-- 1 root root 7 Jan 01 00:00 notes.txt"].

Definition served : endpoint :=
  {| reachable := true; accepts_login := true; writable := true;
     objects := ∅; listings := {[ "/" := listing ]};
     stamp := "20250825151723"; current_dir := "/" |}.

End Dots.

(** ** Symbolic execution of the adapter *)

Ltac unfold_adapter :=
  unfold run, raised, readdir, getattr, read, write, unlink, _get_ftp_connection,
    connect, login, cwd, retrlines, retrbinary, storbinary, delete, sendcmd, quit,
    int_, item, call, try_except, get_self, cache_dir, now, raise,
    mbind, M_bind, mret, M_ret in *.

Ltac tidy :=
  cbn [fst snd self world sessions trace ticks exn_of_failure negb
       existsb opened closed session_setup orb andb app id Nat.pred
       _dir_cache ftp_host ftp_port ftp_user ftp_pass] in *.

(** Case analysis on the innermost scrutinee of the goal. *)
Ltac case_inner :=
  match goal with
  | |- context [match ?x with _ => _ end] =>
      lazymatch x with
      | context [match _ with _ => _ end] => fail
      | _ => destruct x eqn:?
      end
  end.

(** * Properties *)

(** ** The built-ins on concrete inputs *)

Example split_listing_line :
  Py.split 8 "drwxr-xr-x 2 root root 4096 Jan 01 00:00 users"
  = ["drwxr-xr-x"; "2"; "root"; "root"; "4096"; "Jan"; "01"; "00:00"; "users"].
Proof. reflexivity. Qed.

Example split_keeps_tail :
  Py.split 1 "  a   b  c  " = ["a"; "b  c  "].
Proof. reflexivity. Qed.

Example split_blank_tail : Py.split 1 "a   " = ["a"].
Proof. reflexivity. Qed.

Example int_examples :
  Py.int "4096" = Some 4096 ∧ Py.int "-5" = Some (-5) ∧ Py.int "1_000" = Some 1000
  ∧ Py.int " +7 " = Some 7 ∧ Py.int "00012" = Some 12
  ∧ Py.int "1__0" = None ∧ Py.int "_1" = None ∧ Py.int "1_" = None
  ∧ Py.int "" = None ∧ Py.int "12a" = None ∧ Py.int "+ 5" = None
  ∧ Py.int (String "028" "5") = None.
Proof. repeat split. Qed.

(** The superscript two is a digit for [isdigit] and no literal for [int]. *)
Example isdigit_not_int :
  Py.isdigit (String "178" "") = true ∧ Py.int (String "178" "") = None.
Proof. split; reflexivity. Qed.

Example slice_examples :
  Py.slice [1; 2; 3; 4; 5] 1 3 = [2; 3] ∧ Py.slice [1; 2; 3] 2 10 = [3]
  ∧ Py.slice [1; 2; 3] 5 9 = [] ∧ Py.slice [1; 2; 3] (-2) 3 = [2; 3].
Proof. repeat split. Qed.

Example mode_bits :
  Z.lor stat.S_IFDIR o755 = 16877 ∧ Z.lor stat.S_IFREG o644 = 33188.
Proof. split; reflexivity. Qed.

(** ** Slices *)

Lemma slice_nonneg {A} (l : list A) (offset size : Z) :
  0 ≤ offset → 0 ≤ size →
  Py.slice l offset (offset + size) = take (Z.to_nat size) (drop (Z.to_nat offset) l).
Proof.
  intros Hoff Hsize. unfold Py.slice, Py.slice_bound.
  destruct (Z.ltb_spec offset 0) as [?|_]; [lia|].
  destruct (Z.ltb_spec (offset + size) 0) as [?|_]; [lia|].
  destruct (Z.le_gt_cases (Z.of_nat (length l)) offset) as [Hge|Hlt].
  - rewrite !drop_ge by lia. by rewrite !take_nil.
  - rewrite (Z.min_l offset) by lia.
    destruct (Z.le_gt_cases (offset + size) (Z.of_nat (length l))) as [Hin|Hout].
    + rewrite Z.min_l by lia. f_equal. lia.
    + rewrite Z.min_r by lia.
      rewrite !take_ge; [done | rewrite length_drop; lia | rewrite length_drop; lia].
Qed.

Lemma slice_length {A} (l : list A) (offset size : Z) :
  0 ≤ offset → 0 ≤ size →
  Z.of_nat (length (Py.slice l offset (offset + size)))
  = Z.max 0 (Z.min size (Z.of_nat (length l) - offset)).
Proof.
  intros Hoff Hsize. rewrite slice_nonneg by done.
  rewrite length_take, length_drop. lia.
Qed.

Lemma slice_past_end {A} (l : list A) (offset size : Z) :
  0 ≤ size → Z.of_nat (length l) ≤ offset → Py.slice l offset (offset + size) = [].
Proof.
  intros Hsize Hpast. rewrite slice_nonneg by lia.
  rewrite drop_ge by lia. apply take_nil.
Qed.

(** ** The listing parser leaves the protocol alone *)

Section Frame.
Context {W : Type} `{Host W}.

Lemma same_but_ticks_refl (m : machine W) : same_but_ticks m m.
Proof. by repeat split. Qed.

Lemma same_but_ticks_trans (m1 m2 m3 : machine W) :
  same_but_ticks m1 m2 → same_but_ticks m2 m3 → same_but_ticks m1 m3.
Proof.
  unfold same_but_ticks. intros (?&?&?&?) (?&?&?&?). repeat split; congruence.
Qed.

Lemma _ftp_list_to_files_line_frame files line (m : machine W) :
  same_but_ticks m (_ftp_list_to_files_line files line m).2.
Proof.
  unfold _ftp_list_to_files_line; unfold_adapter.
  repeat case_inner; by repeat split.
Qed.

Lemma for_each_frame {A B} (body : A → B → M W A) (l : list B) :
  (∀ acc x m, same_but_ticks m (body acc x m).2) →
  ∀ acc m, same_but_ticks m (for_each body acc l m).2.
Proof.
  intros Hbody. induction l as [|x l IH]; intros acc m; cbn [for_each].
  - apply same_but_ticks_refl.
  - unfold mbind, M_bind. specialize (Hbody acc x m).
    destruct (body acc x m) as [[acc'|e] m1]; cbn [snd] in *; [|done].
    eapply same_but_ticks_trans; [exact Hbody | apply IH].
Qed.

Lemma _ftp_list_to_files_frame listing (m : machine W) :
  same_but_ticks m (_ftp_list_to_files listing m).2.
Proof. apply for_each_frame, _ftp_list_to_files_line_frame. Qed.

(** The callback of [read] fails on the first chunk it is given. *)
Lemma feed_store_data (content : list byte) chunks :
  feed store_data content chunks
  = match chunks with
    | [] => Return content
    | _ :: _ => Raise (Exception "AttributeError")
    end.
Proof. by destruct chunks. Qed.

Lemma _ftp_list_to_files_line_raises files line (m : machine W) e :
  (_ftp_list_to_files_line files line m).1 = Raise e → e = Exception "ValueError".
Proof.
  unfold _ftp_list_to_files_line; unfold_adapter.
  repeat case_inner; cbn [fst]; congruence.
Qed.

Lemma _ftp_list_to_files_raises listing (m : machine W) e :
  (_ftp_list_to_files listing m).1 = Raise e → e = Exception "ValueError".
Proof.
  unfold _ftp_list_to_files. generalize (@nil (string * entry)) as acc.
  revert m. induction listing as [|line listing IH]; intros m acc; cbn [for_each].
  - done.
  - unfold mbind, M_bind.
    pose proof (_ftp_list_to_files_line_raises acc line m e) as Hline.
    destruct (_ftp_list_to_files_line acc line m) as [[acc'|e'] m1]; cbn [fst] in *.
    + apply IH.
    + exact Hline.
Qed.

End Frame.

(** A call of the parser in the goal: its two outcomes, with what
    [_ftp_list_to_files_frame] and [_ftp_list_to_files_raises] say of
    them. *)
Ltac parse_step :=
  match goal with
  | |- context [_ftp_list_to_files ?l ?m] =>
      let Hf := fresh "Hframe" in
      let Hp := fresh "Hparse" in
      let Hr := fresh "Hraises" in
      pose proof (_ftp_list_to_files_frame l m) as Hf;
      pose proof (_ftp_list_to_files_raises l m) as Hr;
      destruct (_ftp_list_to_files l m) as [[?|?] [? ? ? ? ?]] eqn:Hp;
      destruct Hf as (?&?&?&?); tidy;
      [clear Hr | specialize (Hr _ eq_refl)]; subst
  end.

(** Runs an operation along every path of its calls. *)
Ltac symex :=
  unfold_adapter; tidy;
  repeat first [rewrite feed_store_data | parse_step | case_inner; tidy].

(** Reads the events an execution path appended off the equation between
    the final trace and [trace m ++ evs]. *)
Ltac read_trace H :=
  rewrite <- ?app_assoc in H; cbn [app] in H;
  first [ apply app_inv_head in H
        | rewrite <- (app_nil_r (trace _)) in H at 1; apply app_inv_head in H ];
  subst.

(** ** Sessions, error codes and the root *)

Section Boundary.
Context {W : Type} `{Host W}.

(** Support for C9 (any environment): when the call that fails is the
    transport connection or the authentication, the operation raises
    the code it gives to failures it does not recognise, I/O error, or
    not-found in [getattr]; it never raises connection-refused. *)
Lemma session_setup_failure (op : operation) (m : machine W) evs c f :
  trace (run op m).2 = trace m ++ evs →
  last evs = Some (c, Some f) →
  session_setup c = true →
  (run op m).1 = Some (FuseOSError (untranslated op)).
Proof.
  intros Htrace Hlast Hsetup. destruct op; revert Htrace; symex; intros Htrace;
    read_trace Htrace; cbn [last] in Hlast; simplify_eq; try done.
Qed.

(** C8, as amended: an operation that returns normally leaves as many
    sessions open as it found, so the session it opened is closed. An
    operation that raises because a call after [connect] was answered by
    a failure, or because the callback of its retrieval raised, leaves
    the session it opened open: no handler closes it. When it is
    [connect] that failed, a session is left open exactly when the
    transport connection had been made; when the operation raises after
    its [quit] succeeded, none is. *)
Theorem session_accounting (op : operation) (m : machine W) evs :
  trace (run op m).2 = trace m ++ evs →
  sessions (run op m).2 =
    match (run op m).1 with
    | None => sessions m
    | Some _ =>
        if existsb stopped evs then S (sessions m)
        else
          match last evs with
          | Some (CONNECT host port, Some _) =>
              if remote_transport host port (world m) then S (sessions m)
              else sessions m
          | _ => sessions m
          end
    end.
Proof.
  intros Htrace. destruct op; revert Htrace; symex; intros Htrace;
    read_trace Htrace; tidy; cbn [existsb stopped orb last] in *; simplify_eq;
    first [done | congruence].
Qed.

(** C4, as amended: a failure answered to a protocol command of an
    established session is raised as the code of [translated], which
    differs from operation to operation; [getattr] succeeds whenever its
    [quit] does, whatever the SIZE and MDTM probes answered; and a
    failure that is no protocol reply is raised as I/O error. *)
Theorem failure_translation :
  (∀ (op : operation) (m : machine W) evs c f,
      trace (run op m).2 = trace m ++ evs →
      last evs = Some (c, Some f) →
      session_setup c = false →
      (run op m).1 = Some (FuseOSError (translated op f)))
  ∧ (∀ path (m : machine W) evs,
      trace (run (Getattr path) m).2 = trace m ++ evs →
      last evs = Some (QUIT, None) →
      (run (Getattr path) m).1 = None)
  ∧ (∀ (op : operation) (m : machine W) evs c e,
      trace (run op m).2 = trace m ++ evs →
      last evs = Some (c, None) →
      (run op m).1 = Some e →
      e = FuseOSError errno.EIO).
Proof.
  split; [|split].
  - intros op m evs c f Htrace Hlast Hsetup.
    destruct op; revert Htrace; symex; intros Htrace;
      read_trace Htrace; cbn [last] in Hlast; simplify_eq; try done;
      match goal with Hf : exn_of_failure ?f = _ |- _ => destruct f; simplify_eq/= end;
      repeat match goal with Hc : Py.contains _ _ = _ |- _ => rewrite Hc end;
      done.
  - intros path m evs Htrace Hlast.
    revert Htrace; symex; intros Htrace;
      read_trace Htrace; cbn [last] in Hlast; simplify_eq; done.
  - intros op m evs c e Htrace Hlast Hraised.
    destruct op; revert Htrace Hraised; symex; intros Htrace Hraised;
      read_trace Htrace; cbn [last] in Hlast; tidy; simplify_eq; done.
Qed.

(** C5: [getattr] on the root returns the fixed directory record,
    mode 0o040755, two links, size 0, and leaves the world, the open
    sessions and the trace of protocol calls as they were: it only
    reads the clock. *)
Theorem getattr_root (m : machine W) :
  getattr "/" m = (Return (root_attributes (ticks m)), tick3 m)
  ∧ st_mode (root_attributes (ticks m)) = Z.lor stat.S_IFDIR o755
  ∧ Z.land (st_mode (root_attributes (ticks m))) 511 = o755
  ∧ st_nlink (root_attributes (ticks m)) = 2
  ∧ st_size (root_attributes (ticks m)) = 0
  ∧ world (tick3 m) = world m
  ∧ sessions (tick3 m) = sessions m
  ∧ trace (tick3 m) = trace m.
Proof. repeat split. Qed.

End Boundary.

(** ** Reading and writing whole objects *)

Section Transfer.
Context {W : Type} `{Host W}.

Lemma slice_nil {A} (i j : Z) : Py.slice (@nil A) i j = [].
Proof. unfold Py.slice. by rewrite drop_nil, take_nil. Qed.

(** Support for C3 (any environment): the slice that [read] takes once
    the buffer is filled. A [read] that returns gives the bytes
    [offset, offset + size) of the buffer, cut at the end of the buffer:
    [max 0 (min size (L - offset))] bytes, none when [offset >= L]. By
    [feed_store_data] the buffer of a [read] that returns is empty. *)
Lemma read_slice path (size offset : Z) (m : machine W) bs :
  0 ≤ size → 0 ≤ offset →
  (read path size offset m).1 = Return bs →
  ∃ w chunks w' content,
    remote_retrbinary ("RETR " +:+ path) w = ((chunks, None), w')
    ∧ feed store_data [] chunks = Return content
    ∧ bs = take (Z.to_nat size) (drop (Z.to_nat offset) content)
    ∧ Z.of_nat (length bs)
      = Z.max 0 (Z.min size (Z.of_nat (length content) - offset))
    ∧ (Z.of_nat (length content) ≤ offset → bs = []).
Proof.
  intros Hsize Hoffset. unfold_adapter; tidy.
  repeat (case_inner; tidy); intros Hbs; simplify_eq.
  eexists _, _, _, _. split; [eassumption|]. split; [eassumption|].
  split; [by apply slice_nonneg|]. split; [by apply slice_length|].
  intros Hpast. by apply slice_past_end.
Qed.

(** Once the session is established, a retrieval that hands a chunk
    to the callback makes [read] raise I/O error. *)
Lemma read_raises_when_fed path (size offset : Z) (m : machine W) w1 w2 chunks final w3 :
  remote_connect (ftp_host (self m)) (ftp_port (self m)) (world m) = (inr (), w1) →
  remote_login (ftp_user (self m)) (ftp_pass (self m)) w1 = (inr (), w2) →
  remote_retrbinary ("RETR " +:+ path) w2 = ((chunks, final), w3) →
  chunks ≠ [] →
  (read path size offset m).1 = Raise (FuseOSError errno.EIO).
Proof.
  intros Hconnect Hlogin Hretr Hchunks.
  unfold_adapter; tidy. rewrite Hconnect; tidy. rewrite Hlogin; tidy.
  rewrite Hretr; tidy. rewrite feed_store_data.
  destruct chunks; [done|]. reflexivity.
Qed.

(** C10: when the retrieval hands at least one chunk to the callback,
    [read] raises I/O error; a [read] that returns was handed no chunk
    and returns no byte, whatever [size] and [offset]. *)
Theorem read_fails_on_any_chunk :
  (∀ path (size offset : Z) (m : machine W) w1 w2 chunks final w3,
      remote_connect (ftp_host (self m)) (ftp_port (self m)) (world m) = (inr (), w1) →
      remote_login (ftp_user (self m)) (ftp_pass (self m)) w1 = (inr (), w2) →
      remote_retrbinary ("RETR " +:+ path) w2 = ((chunks, final), w3) →
      chunks ≠ [] →
      (read path size offset m).1 = Raise (FuseOSError errno.EIO))
  ∧ (∀ path (size offset : Z) (m : machine W) bs,
      (read path size offset m).1 = Return bs →
      bs = [] ∧ ∃ w w', remote_retrbinary ("RETR " +:+ path) w = (([], None), w')).
Proof.
  split.
  - apply read_raises_when_fed.
  - intros path size offset m bs. symex; intros Hbs; simplify_eq.
    split; [apply slice_nil | eauto].
Qed.

(** Support for C1 (any environment): [write] does not look at
    [offset]; when it returns, it returns [len(data)] and the calls it
    made are [connect], [login], one STOR of exactly [data] and
    [quit]. *)
Lemma write_stores_data path data (offset : Z) (m : machine W) n :
  (write path data offset m).1 = Return n →
  n = Z.of_nat (length data)
  ∧ trace (write path data offset m).2
    = trace m ++ [(CONNECT (ftp_host (self m)) (ftp_port (self m)), None);
                  (LOGIN (ftp_user (self m)) (ftp_pass (self m)), None);
                  (STORBINARY ("STOR " +:+ path) data, None);
                  (QUIT, None)]
  ∧ write path data offset m = write path data 0 m.
Proof.
  symex; intros Hn; simplify_eq.
  rewrite <- !app_assoc. done.
Qed.

End Transfer.

(** ** Dictionaries in insertion order *)

Section Dict.
Context {V : Type}.
Implicit Types (d : list (string * V)) (k n : string) (v : V).

Lemma dict_keys_set d k v n :
  n ∈ dict_keys (dict_set d k v) ↔ n = k ∨ n ∈ dict_keys d.
Proof.
  unfold dict_keys. induction d as [|[k' v'] d IH]; cbn [dict_set map fst].
  - rewrite list_elem_of_singleton, elem_of_nil. tauto.
  - destruct (String.eqb_spec k' k) as [->|Hne]; cbn [map fst].
    + rewrite !elem_of_cons. tauto.
    + rewrite !elem_of_cons, IH. tauto.
Qed.

Lemma dict_keys_set_NoDup d k v :
  NoDup (dict_keys d) → NoDup (dict_keys (dict_set d k v)).
Proof.
  unfold dict_keys. induction d as [|[k' v'] d IH]; cbn [dict_set map fst]; intros Hd.
  - apply NoDup_singleton.
  - apply NoDup_cons in Hd as [Hk' Hd].
    destruct (String.eqb_spec k' k) as [->|Hne]; cbn [map fst].
    + by apply NoDup_cons.
    + apply NoDup_cons. split; [|by apply IH].
      intros Hin. apply (dict_keys_set d k v k') in Hin as [->|Hin]; done.
Qed.

Lemma dict_get_set d k v n :
  dict_get (dict_set d k v) n = if decide (k = n) then Some v else dict_get d n.
Proof.
  induction d as [|[k' v'] d IH]; cbn [dict_set dict_get].
  - destruct (String.eqb_spec k n); by case_decide.
  - destruct (String.eqb_spec k' k) as [->|Hne]; cbn [dict_get].
    + destruct (String.eqb_spec k n); by case_decide.
    + rewrite IH. destruct (String.eqb_spec k' n) as [->|?]; [|done].
      by case_decide.
Qed.

End Dict.

(** ** Listings *)

Section Listing.
Context {W : Type} `{Host W}.

(** One turn of the loop: a line without a name is skipped, any other
    line files the entry that describes it under its name. *)
Lemma _ftp_list_to_files_line_spec files line (m : machine W) files' :
  (_ftp_list_to_files_line files line m).1 = Return files' →
  match line_name line with
  | None => files' = files
  | Some n => ∃ e, files' = dict_set files n e ∧ describes line e
  end.
Proof.
  unfold _ftp_list_to_files_line, line_name, describes, line_size; unfold_adapter.
  repeat case_inner; cbn [fst]; intros Hret; simplify_eq; try done.
  all: eexists; (split; [reflexivity|]); cbn; repeat split; try done.
  all: by match goal with Hd : Py.isdigit _ = _ |- _ => rewrite Hd end.
Qed.

Lemma for_each_line_spec listing : ∀ acc (m : machine W) files,
  (for_each _ftp_list_to_files_line acc listing m).1 = Return files →
  (NoDup (dict_keys acc) → NoDup (dict_keys files))
  ∧ (∀ n, n ∈ dict_keys files ↔ n ∈ dict_keys acc ∨ Some n ∈ (line_name <$> listing))
  ∧ (∀ n e, dict_get files n = Some e →
       (dict_get acc n = Some e ∧ Some n ∉ (line_name <$> listing))
       ∨ ∃ before line after,
           listing = before ++ line :: after ∧ line_name line = Some n
           ∧ (Some n ∉ (line_name <$> after)) ∧ describes line e).
Proof.
  induction listing as [|line listing IH]; intros acc m files; cbn [for_each].
  - intros [= <-]. split; [done|]. split.
    + intros n. rewrite fmap_nil, elem_of_nil. tauto.
    + intros n e Hget. left. split; [done|]. rewrite fmap_nil. apply not_elem_of_nil.
  - unfold mbind, M_bind.
    pose proof (_ftp_list_to_files_line_spec acc line m) as Hline.
    destruct (_ftp_list_to_files_line acc line m) as [[acc'|e'] m1]; [|done].
    specialize (Hline acc' eq_refl). intros Hrest.
    apply IH in Hrest as (Hnodup & Hkeys & Hlast).
    rewrite fmap_cons.
    destruct (line_name line) as [k|] eqn:Hname.
    + destruct Hline as (e0 & -> & Hdesc). split; [|split].
      * intros Hacc. by apply Hnodup, dict_keys_set_NoDup.
      * intros n. rewrite Hkeys, dict_keys_set, elem_of_cons.
        split; [intros [[->|?]|?]|intros [?|[[= ->]|?]]]; auto.
      * intros n e Hget. apply Hlast in Hget as [[Hget Hnot]|Hlater].
        -- rewrite dict_get_set in Hget. case_decide as Hk.
           ++ simplify_eq. right. exists [], line, listing. done.
           ++ left. split; [done|]. rewrite elem_of_cons. intros [[= ->]|?]; done.
        -- right. destruct Hlater as (before & line' & after & -> & ? & ? & ?).
           exists (line :: before), line', after. done.
    + subst acc'. split; [done|]. split.
      * intros n. rewrite Hkeys, elem_of_cons. split; [intros [?|?]|intros [?|[?|?]]]; auto; done.
      * intros n e Hget. apply Hlast in Hget as [[Hget Hnot]|Hlater].
        -- left. split; [done|]. rewrite elem_of_cons. intros [?|?]; done.
        -- right. destruct Hlater as (before & line' & after & -> & ? & ? & ?).
           exists (line :: before), line', after. done.
Qed.

(** The dictionary of a listing: its keys are the names of the lines
    kept, each once, and each carries the entry of the last line that
    has the name. *)
Lemma _ftp_list_to_files_spec listing (m : machine W) files :
  (_ftp_list_to_files listing m).1 = Return files →
  names_of listing (dict_keys files) ∧ last_wins listing files.
Proof.
  intros Hparse. apply for_each_line_spec in Hparse as (Hnodup & Hkeys & Hlast).
  split; [split|].
  - apply Hnodup, NoDup_nil_2.
  - intros n. rewrite Hkeys. cbn. rewrite elem_of_nil. tauto.
  - intros n e Hget. apply Hlast in Hget as [[Hget _]|Hlater]; done.
Qed.

(** Support for C6: the parse returns whenever no line that is kept
    has a size field that [isdigit] accepts and [int] rejects. *)
Lemma _ftp_list_to_files_line_returns files line (m : machine W) :
  (line_name line ≠ None → line_size line ≠ None) →
  ∃ files', (_ftp_list_to_files_line files line m).1 = Return files'.
Proof.
  unfold _ftp_list_to_files_line, line_name, line_size; unfold_adapter.
  repeat case_inner; cbn [fst]; intros Hsize; eauto.
  by destruct Hsize.
Qed.

Lemma _ftp_list_to_files_returns listing (m : machine W) :
  (∀ line, line ∈ listing → line_name line ≠ None → line_size line ≠ None) →
  ∃ files, (_ftp_list_to_files listing m).1 = Return files.
Proof.
  unfold _ftp_list_to_files. generalize (@nil (string * entry)) as acc. revert m.
  induction listing as [|line listing IH]; intros m acc Hsizes; cbn [for_each].
  - by eexists.
  - unfold mbind, M_bind.
    destruct (_ftp_list_to_files_line_returns acc line m) as [acc' Hline].
    { apply Hsizes, elem_of_cons. by left. }
    destruct (_ftp_list_to_files_line acc line m) as [r m1]; cbn [fst] in Hline; subst r.
    apply IH. intros line' Hin. apply Hsizes, elem_of_cons. by right.
Qed.

(** C7, as amended: a [readdir] that returns gives ['.'], ['..'] and
    then the names of a listing, each once among the names that follow
    the two literals; a line of the listing that is itself named ['.']
    or ['..'] is among them. When the directory was not cached, the
    listing is the one the LIST command just delivered, the names are
    the keys of the dictionary parsed from it, where every name carries
    the entry of its last line, and the names are now cached. *)
Theorem readdir_names path (m : machine W) names :
  cache_ok (_dir_cache (self m)) →
  (readdir path m).1 = Return names →
  cache_ok (_dir_cache (self (readdir path m).2))
  ∧ ∃ listing tail,
      names = "." :: ".." :: tail ∧ names_of listing tail
      ∧ (_dir_cache (self m) !! path = None →
         ∃ w w' files (m0 : machine W),
           remote_retrlines "LIST" w = (inr listing, w')
           ∧ (_ftp_list_to_files listing m0).1 = Return files
           ∧ tail = dict_keys files
           ∧ last_wins listing files
           ∧ _dir_cache (self (readdir path m).2) !! path = Some names).
Proof.
  intros Hcache. symex; intros Hret; simplify_eq.
  - split; [done|]. destruct (Hcache _ _ Heqo) as (listing & tail & -> & Hnames).
    exists listing, tail. split; [done|]. split; [done|]. intros [=].
  - match goal with Hp : _ftp_list_to_files ?l ?m0 = (Return ?files, _) |- _ =>
      pose proof (_ftp_list_to_files_spec l m0 files) as Hspec;
      rewrite Hp in Hspec; destruct (Hspec eq_refl) as [Hnames Hlast]
    end.
    split.
    + intros p ns. rewrite lookup_insert. case_decide.
      * intros [= <-]. eauto.
      * apply Hcache.
    + eexists _, _. split; [done|]. split; [done|]. intros _.
      eexists _, _, _, _. split; [eassumption|].
      split; [by erewrite Hparse|]. split; [done|]. split; [done|].
      by rewrite lookup_insert_eq.
  - match goal with Hp : _ftp_list_to_files ?l ?m0 = (Return ?files, _) |- _ =>
      pose proof (_ftp_list_to_files_spec l m0 files) as Hspec;
      rewrite Hp in Hspec; destruct (Hspec eq_refl) as [Hnames Hlast]
    end.
    split.
    + intros p ns. rewrite lookup_insert. case_decide.
      * intros [= <-]. eauto.
      * apply Hcache.
    + eexists _, _. split; [done|]. split; [done|]. intros _.
      eexists _, _, _, _. split; [eassumption|].
      split; [by erewrite Hparse|]. split; [done|]. split; [done|].
      by rewrite lookup_insert_eq.
Qed.

End Listing.

(** ** The reference endpoint *)

Section EndpointFacts.
Context (clk : nat → Z) (strp : string → option Z).
Let host : Host endpoint := Endpoint.host clk strp.
Local Existing Instance host.

Lemma prefix_append (p s : string) : String.prefix p (p +:+ s) = true.
Proof.
  induction p as [|c p IH]; [by destruct s|].
  change (String c p +:+ s) with (String c (p +:+ s)).
  cbn [String.prefix]. destruct (ascii_dec c c); [exact IH|done].
Qed.

Lemma substring_all (s : string) : String.substring 0 (String.length s) s = s.
Proof. induction s as [|c s IH]; cbn; [done|by rewrite IH]. Qed.

Lemma substring_append (p s : string) :
  String.substring (String.length p) (String.length (p +:+ s) - String.length p) (p +:+ s) = s.
Proof.
  induction p as [|c p IH].
  - change ("" +:+ s) with s. cbn [String.length].
    rewrite Nat.sub_0_r. apply substring_all.
  - change (String c p +:+ s) with (String c (p +:+ s)).
    cbn [String.length String.substring Nat.sub]. exact IH.
Qed.

Lemma argument_append (verb path : string) :
  Endpoint.argument verb (verb +:+ path) = Some path.
Proof.
  unfold Endpoint.argument. by rewrite prefix_append, substring_append.
Qed.

Lemma prefix_empty (s : string) : String.prefix "" s = true.
Proof. by destruct s. Qed.

Lemma contains_char_append (c : ascii) (a b : string) :
  Py.contains (String c "") (a +:+ b)
  = Py.contains (String c "") a || Py.contains (String c "") b.
Proof.
  induction a as [|x a IH].
  - change ("" +:+ b) with b. done.
  - change (String x a +:+ b) with (String x (a +:+ b)).
    cbn [Py.contains String.prefix]. rewrite IH, !prefix_empty.
    by destruct (ascii_dec c x).
Qed.

Lemma legal_append (a b : string) :
  Endpoint.legal (a +:+ b) = Endpoint.legal a && Endpoint.legal b.
Proof.
  unfold Endpoint.legal, Endpoint.CR, Endpoint.LF.
  rewrite !contains_char_append.
  by destruct (Py.contains _ a), (Py.contains _ a), (Py.contains _ b), (Py.contains _ b).
Qed.

Lemma blocks_nonempty (data : list byte) :
  data ≠ [] → Endpoint.blocks (length data) Endpoint.blocksize data ≠ [].
Proof. by destruct data. Qed.

(** What a [write] that returns has found and left on the endpoint. *)
Lemma write_returns_world path data (offset : Z) (m : machine endpoint) n :
  (write path data offset m).1 = Return n →
  self (write path data offset m).2 = self m
  ∧ reachable (world (write path data offset m).2) = true
  ∧ accepts_login (world (write path data offset m).2) = true
  ∧ Endpoint.legal (ftp_user (self m)) && Endpoint.legal (ftp_pass (self m)) = true
  ∧ Endpoint.legal path = true
  ∧ objects (world (write path data offset m).2) = <[path := data]> (objects (world m)).
Proof.
  destruct m as [s [r a wr o l st cd] k t c].
  unfold_adapter; tidy.
  cbn [remote_connect remote_login remote_storbinary remote_quit host Endpoint.host].
  unfold Endpoint.connect, Endpoint.login, Endpoint.storbinary, Endpoint.quit,
    Endpoint.with_current_dir, Endpoint.with_objects.
  rewrite argument_append, legal_append.
  repeat (case_inner; tidy; cbn [reachable accepts_login writable objects] in * );
    intros Hret; simplify_eq.
  repeat match goal with Hl : negb _ = false |- _ => apply negb_false_iff in Hl end.
  repeat match goal with Hl : _ && _ = true |- _ => apply andb_true_iff in Hl as [? ?] end.
  repeat split; try done. by apply andb_true_iff.
Qed.

(** C1: on the reference endpoint, a [write] that returns leaves
    exactly [data] as the object at [path], whatever the object held
    before and whatever [offset] is; it returns [len(data)], sends one
    STOR of [data], and is the same computation as with [offset] 0. *)
Theorem write_replaces_object path data (offset : Z) (m : machine endpoint) n :
  (write path data offset m).1 = Return n →
  objects (world (write path data offset m).2) !! path = Some data
  ∧ n = Z.of_nat (length data)
  ∧ (STORBINARY ("STOR " +:+ path) data, None) ∈ trace (write path data offset m).2
  ∧ write path data offset m = write path data 0 m.
Proof.
  intros Hret.
  destruct (write_stores_data path data offset m n Hret) as (Hn & Htrace & Hoffset).
  destruct (write_returns_world path data offset m n Hret) as (_ & _ & _ & _ & _ & Hobjects).
  split; [|split; [done|split; [|done]]].
  - rewrite Hobjects. apply lookup_insert_eq.
  - rewrite Htrace. rewrite !elem_of_app, !elem_of_cons. auto.
Qed.

(** Support for C2: on the reference endpoint, after a [write] of at
    least one byte that returns, the [read] of the same object raises
    I/O error instead of returning the bytes. *)
Lemma write_then_read_raises path data (m : machine endpoint) n :
  data ≠ [] →
  (write path data 0 m).1 = Return n →
  (read path (Z.of_nat (length data)) 0 (write path data 0 m).2).1
  = Raise (FuseOSError errno.EIO).
Proof.
  intros Hdata Hret.
  destruct (write_returns_world path data 0 m n Hret)
    as (Hself & Hreach & Hlogin & Hcred & Hpath & Hobjects).
  eapply (read_raises_when_fed path _ _ _ _ _
            (Endpoint.blocks (length data) Endpoint.blocksize data) None).
  - cbn [remote_connect host Endpoint.host]. unfold Endpoint.connect.
    rewrite Hreach. reflexivity.
  - cbn [remote_login host Endpoint.host]. unfold Endpoint.login.
    rewrite Hself, Hcred. cbn [negb accepts_login Endpoint.with_current_dir].
    rewrite Hlogin. reflexivity.
  - cbn [remote_retrbinary host Endpoint.host]. unfold Endpoint.retrbinary.
    rewrite argument_append, legal_append, Hpath.
    cbn [objects Endpoint.with_current_dir]. rewrite Hobjects, lookup_insert_eq.
    reflexivity.
  - by apply blocks_nonempty.
Qed.

End EndpointFacts.

(** ** Runs on the concrete environments *)

Section Runs.
Local Existing Instance Sample.host.
Import Sample.

(** The scenario of the listing parser: one directory line. *)
Example listing_scenario :
  (_ftp_list_to_files ["drwxr-xr-x 2 root root 4096 Jan 01 00:00 users"]
     (Endpoint.mounted store)).1
  = Return [("users",
             {| is_dir := true; size := 4096; permissions := "drwxr-xr-x";
                mode := stat.S_IFDIR; nlink := 2;
                mtime := 1756135043; ctime := 1756135044; atime := 1756135045 |})].
Proof. vm_compute. reflexivity. Qed.

(** The line with too few fields is skipped, the later [users] line
    replaces the earlier one and keeps its place. *)
Example listing_duplicates :
  (λ files, (dict_keys files, is_dir <$> dict_get files "users", size <$> dict_get files "users"))
    <$> (match (_ftp_list_to_files root_listing (Endpoint.mounted store)).1 with
         | Return files => Some files
         | Raise _ => None
         end)
  = Some (["users"; "notes.txt"], Some true, Some 4096).
Proof. vm_compute. reflexivity. Qed.

(** C6, at the input where the code departs from it: a line of nine
    fields whose size field is the superscript two. [isdigit] accepts
    the field, [int] raises [ValueError], the parse is abandoned with
    the lines already parsed, and [readdir] raises I/O error. *)
Theorem superscript_size_aborts_listing :
  length (Py.split 8 superscript_line) = 9%nat
  ∧ Py.isdigit (nth 4 (Py.split 8 superscript_line) "") = true
  ∧ (_ftp_list_to_files
       ["drwxr-xr-x 2 root root 4096 Jan 01 00:00 users"; superscript_line]
       (Endpoint.mounted store)).1
    = Raise (Exception "ValueError")
  ∧ (readdir "/odd" (Endpoint.mounted store)).1 = Raise (FuseOSError errno.EIO).
Proof. repeat split; vm_compute; reflexivity. Qed.

(** C2, at the input where the code departs from it: the [write] of
    [b"hello"] at offset 0 returns 5 and stores the five bytes, and the
    [read] of 5 bytes at offset 0 that follows raises I/O error. *)
Theorem write_hello_then_read_raises :
  (write "/data/x" hello 0 (Endpoint.mounted store)).1 = Return 5
  ∧ objects (world (write "/data/x" hello 0 (Endpoint.mounted store)).2) !! "/data/x"
    = Some hello
  ∧ (read "/data/x" 5 0 (write "/data/x" hello 0 (Endpoint.mounted store)).2).1
    = Raise (FuseOSError errno.EIO).
Proof. repeat split; vm_compute; reflexivity. Qed.

(** C3, at the input where the code departs from it: the retrieval of
    [/data/x] delivers a buffer of sixteen bytes, whose bytes [0, 5)
    are [b"previ"], and the [read] of 5 bytes at offset 0 raises I/O
    error instead of returning them. So does the [read] of every other
    range of that object. *)
Theorem read_of_stored_object_raises :
  remote_retrbinary ("RETR " +:+ "/data/x") store
  = (([list_byte_of_string "previous content"], None), store)
  ∧ length (list_byte_of_string "previous content") = 16%nat
  ∧ Py.slice (list_byte_of_string "previous content") 0 (0 + 5)
    = list_byte_of_string "previ"
  ∧ Z.max 0 (Z.min 5 (16 - 0)) = 5
  ∧ (read "/data/x" 5 0 (Endpoint.mounted store)).1 = Raise (FuseOSError errno.EIO)
  ∧ ∀ size offset,
      (read "/data/x" size offset (Endpoint.mounted store)).1
      = Raise (FuseOSError errno.EIO).
Proof.
  split; [vm_compute; reflexivity|]. split; [reflexivity|].
  split; [vm_compute; reflexivity|]. split; [reflexivity|].
  split; [vm_compute; reflexivity|].
  intros size offset.
  apply (read_raises_when_fed "/data/x" size offset (Endpoint.mounted store)
           store store [list_byte_of_string "previous content"] None store);
    [reflexivity | reflexivity | vm_compute; reflexivity | discriminate].
Qed.

(** C9, at the input where the code departs from it: with nothing
    listening, or with the credentials refused, [_get_ftp_connection]
    raises connection-refused, and every operation raises I/O error
    instead, [getattr] not-found. *)
Theorem refused_connection_is_not_reported :
  (_get_ftp_connection (Endpoint.mounted unreachable)).1
    = Raise (FuseOSError errno.ECONNREFUSED)
  ∧ (_get_ftp_connection (Endpoint.mounted locked)).1
    = Raise (FuseOSError errno.ECONNREFUSED)
  ∧ Forall (λ e,
      (readdir "/data" (Endpoint.mounted e)).1 = Raise (FuseOSError errno.EIO)
      ∧ (getattr "/data/x" (Endpoint.mounted e)).1 = Raise (FuseOSError errno.ENOENT)
      ∧ (read "/data/x" 5 0 (Endpoint.mounted e)).1 = Raise (FuseOSError errno.EIO)
      ∧ (write "/data/x" hello 0 (Endpoint.mounted e)).1 = Raise (FuseOSError errno.EIO)
      ∧ (unlink "/data/x" (Endpoint.mounted e)).1 = Raise (FuseOSError errno.EIO))
    [unreachable; locked].
Proof.
  split; [|split]; [vm_compute; reflexivity..|].
  repeat constructor; vm_compute; reflexivity.
Qed.

(** C4 fails as stated: STOR is answered [550 Permission denied.] and
    [write] raises access-denied, not not-found. *)
Lemma write_refused_550_is_access_denied :
  last (trace (run (Write "/data/x" hello 0) (Endpoint.mounted read_only)).2)
  = Some (STORBINARY "STOR /data/x" hello, Some (perm_reply "550 Permission denied."))
  ∧ (run (Write "/data/x" hello 0) (Endpoint.mounted read_only)).1
    = Some (FuseOSError errno.EACCES)
  ∧ (run (Write "/data/x" hello 0) (Endpoint.mounted read_only)).1
    ≠ Some (FuseOSError errno.ENOENT).
Proof. repeat split; vm_compute; [reflexivity..|discriminate]. Qed.

(** C7 fails as stated: when the listing itself has lines named ['.']
    and ['..'], [readdir] returns each of the two names twice, the second
    time taken from the response. *)
Lemma readdir_lists_dot_entries_twice :
  omap line_name Dots.listing = ["."; ".."; "notes.txt"]
  ∧ (readdir "/" (Endpoint.mounted Dots.served)).1
    = Return ["."; ".."; "."; ".."; "notes.txt"]
  ∧ count_occ string_dec ["."; ".."; "."; ".."; "notes.txt"] "." = 2%nat
  ∧ count_occ string_dec ["."; ".."; "."; ".."; "notes.txt"] ".." = 2%nat.
Proof. repeat split; vm_compute; reflexivity. Qed.

(** C8 fails as stated: [readdir] of a directory the endpoint does not
    have opens a session, raises not-found, and returns with the
    session still open. *)
Lemma readdir_missing_directory_leaks_session :
  (run (Readdir "/nope") (Endpoint.mounted store)).1 = Some (FuseOSError errno.ENOENT)
  ∧ existsb opened (trace (run (Readdir "/nope") (Endpoint.mounted store)).2) = true
  ∧ existsb closed (trace (run (Readdir "/nope") (Endpoint.mounted store)).2) = false
  ∧ sessions (Endpoint.mounted store) = 0%nat
  ∧ sessions (run (Readdir "/nope") (Endpoint.mounted store)).2 = 1%nat.
Proof. repeat split; vm_compute; reflexivity. Qed.

End Runs.

(** ** The theorems at concrete inputs *)

Section Witnesses.
Local Existing Instance Sample.host.
Import Sample.

(** A write at offset 3 over an object that holds other bytes. *)
Lemma write_replaces_object_witness :
  (write "/data/x" hello 3 (Endpoint.mounted store)).1 = Return 5
  ∧ (objects (world (write "/data/x" hello 3 (Endpoint.mounted store)).2) !! "/data/x"
     = Some hello
     ∧ 5 = Z.of_nat (length hello)
     ∧ (STORBINARY ("STOR " +:+ "/data/x") hello, None)
       ∈ trace (write "/data/x" hello 3 (Endpoint.mounted store)).2
     ∧ write "/data/x" hello 3 (Endpoint.mounted store)
       = write "/data/x" hello 0 (Endpoint.mounted store)).
Proof.
  split; [vm_compute; reflexivity|].
  apply (write_replaces_object _ _ "/data/x" hello 3 (Endpoint.mounted store) 5).
  vm_compute; reflexivity.
Defined.

(** The read of an object that holds no byte, the only one that returns. *)
Lemma read_slice_witness :
  0 ≤ 5 ∧ 0 ≤ 0
  ∧ (read "/empty" 5 0 (Endpoint.mounted store)).1 = Return []
  ∧ ∃ w chunks w' content,
      remote_retrbinary ("RETR " +:+ "/empty") w = ((chunks, None), w')
      ∧ feed store_data [] chunks = Return content
      ∧ [] = take (Z.to_nat 5) (drop (Z.to_nat 0) content)
      ∧ Z.of_nat (length (@nil byte))
        = Z.max 0 (Z.min 5 (Z.of_nat (length content) - 0))
      ∧ (Z.of_nat (length content) ≤ 0 → @nil byte = []).
Proof.
  split; [lia|]. split; [lia|]. split; [vm_compute; reflexivity|].
  apply (read_slice "/empty" 5 0 (Endpoint.mounted store) []);
    [lia | lia | vm_compute; reflexivity].
Defined.

(** STOR refused with a 550 reply. *)
Lemma failure_translation_witness :
  trace (run (Write "/data/x" hello 0) (Endpoint.mounted read_only)).2
  = trace (Endpoint.mounted read_only)
    ++ [(CONNECT "localhost" 2121, None); (LOGIN "root" "fake.jwt.token", None);
        (STORBINARY "STOR /data/x" hello, Some (perm_reply "550 Permission denied."))]
  ∧ session_setup (STORBINARY "STOR /data/x" hello) = false
  ∧ (run (Write "/data/x" hello 0) (Endpoint.mounted read_only)).1
    = Some (FuseOSError
              (translated (Write "/data/x" hello 0) (perm_reply "550 Permission denied."))).
Proof.
  split; [vm_compute; reflexivity|]. split; [reflexivity|].
  apply (proj1 failure_translation (Write "/data/x" hello 0) (Endpoint.mounted read_only)
           [(CONNECT "localhost" 2121, None); (LOGIN "root" "fake.jwt.token", None);
            (STORBINARY "STOR /data/x" hello, Some (perm_reply "550 Permission denied."))]
           (STORBINARY "STOR /data/x" hello) (perm_reply "550 Permission denied."));
    [vm_compute; reflexivity | reflexivity | reflexivity].
Defined.

(** The listing of the root, where two lines share a name. *)
Lemma readdir_names_witness :
  cache_ok (_dir_cache (self (Endpoint.mounted store)))
  ∧ (readdir "/" (Endpoint.mounted store)).1 = Return ["."; ".."; "users"; "notes.txt"]
  ∧ cache_ok (_dir_cache (self (readdir "/" (Endpoint.mounted store)).2))
  ∧ ∃ listing tail,
      ["."; ".."; "users"; "notes.txt"] = "." :: ".." :: tail ∧ names_of listing tail
      ∧ (_dir_cache (self (Endpoint.mounted store)) !! "/" = None →
         ∃ w w' files (m0 : machine endpoint),
           remote_retrlines "LIST" w = (inr listing, w')
           ∧ (_ftp_list_to_files listing m0).1 = Return files
           ∧ tail = dict_keys files
           ∧ last_wins listing files
           ∧ _dir_cache (self (readdir "/" (Endpoint.mounted store)).2) !! "/"
             = Some ["."; ".."; "users"; "notes.txt"]).
Proof.
  assert (cache_ok (_dir_cache (self (Endpoint.mounted store)))) as Hcache.
  { intros path names Hin.
    change (_dir_cache _) with (∅ : gmap string (list string)) in Hin.
    rewrite lookup_empty in Hin. discriminate Hin. }
  split; [exact Hcache|]. split; [vm_compute; reflexivity|].
  apply (readdir_names "/" (Endpoint.mounted store) ["."; ".."; "users"; "notes.txt"]);
    [exact Hcache | vm_compute; reflexivity].
Defined.

(** A [readdir] stopped by a refused change of directory. *)
Lemma session_accounting_witness :
  trace (run (Readdir "/nope") (Endpoint.mounted store)).2
  = trace (Endpoint.mounted store)
    ++ [(CONNECT "localhost" 2121, None); (LOGIN "root" "fake.jwt.token", None);
        (CWD "/nope", Some (perm_reply "550 Failed to change directory."))]
  ∧ sessions (run (Readdir "/nope") (Endpoint.mounted store)).2
    = match (run (Readdir "/nope") (Endpoint.mounted store)).1 with
      | None => sessions (Endpoint.mounted store)
      | Some _ =>
          if existsb stopped
               [(CONNECT "localhost" 2121, None); (LOGIN "root" "fake.jwt.token", None);
                (CWD "/nope", Some (perm_reply "550 Failed to change directory."))]
          then S (sessions (Endpoint.mounted store))
          else
            match last [(CONNECT "localhost" 2121, None);
                        (LOGIN "root" "fake.jwt.token", None);
                        (CWD "/nope", Some (perm_reply "550 Failed to change directory."))]
            with
            | Some (CONNECT host port, Some _) =>
                if remote_transport host port (world (Endpoint.mounted store))
                then S (sessions (Endpoint.mounted store))
                else sessions (Endpoint.mounted store)
            | _ => sessions (Endpoint.mounted store)
            end
      end
  ∧ sessions (run (Readdir "/nope") (Endpoint.mounted store)).2
    = S (sessions (Endpoint.mounted store)).
Proof.
  split; [vm_compute; reflexivity|]. split; [|vm_compute; reflexivity].
  apply (session_accounting (Readdir "/nope") (Endpoint.mounted store)).
  vm_compute; reflexivity.
Defined.

(** The read of an object of sixteen bytes. *)
Lemma read_fails_on_any_chunk_witness :
  remote_connect "localhost" 2121 store = (inr (), store)
  ∧ remote_login "root" "fake.jwt.token" store = (inr (), store)
  ∧ remote_retrbinary ("RETR " +:+ "/data/x") store
    = (([list_byte_of_string "previous content"], None), store)
  ∧ [list_byte_of_string "previous content"] ≠ []
  ∧ (read "/data/x" 16 0 (Endpoint.mounted store)).1 = Raise (FuseOSError errno.EIO).
Proof.
  split; [reflexivity|]. split; [reflexivity|]. split; [vm_compute; reflexivity|].
  split; [discriminate|].
  apply (proj1 read_fails_on_any_chunk "/data/x" 16 0 (Endpoint.mounted store)
           store store [list_byte_of_string "previous content"] None store);
    [reflexivity | reflexivity | vm_compute; reflexivity | discriminate].
Defined.

End Witnesses.

(** * Further properties *)

(** ** Sessions and the boundary of the operations *)

Section Sessions.
Context {W : Type} `{Host W}.

(** X1: [_get_ftp_connection] either returns after a [connect] and a [login]
    that both succeeded, made with the configured address and
    credentials, with one more session open; or raises
    connection-refused and nothing else. When it is the [login] that
    failed, the connection just made stays open; when it is the
    [connect] that failed, a connection stays open exactly when the
    transport connection had been made before the greeting was refused. *)
Theorem _get_ftp_connection_outcome (m : machine W) :
  let host := ftp_host (self m) in
  let port := ftp_port (self m) in
  let user := ftp_user (self m) in
  let passwd := ftp_pass (self m) in
  let m' := (_get_ftp_connection m).2 in
  self m' = self m ∧ ticks m' = ticks m
  ∧ ((_get_ftp_connection m).1 = Return ()
     ∧ trace m' = trace m ++ [(CONNECT host port, None); (LOGIN user passwd, None)]
     ∧ sessions m' = S (sessions m)
     ∨ (_get_ftp_connection m).1 = Raise (FuseOSError errno.ECONNREFUSED)
       ∧ ((∃ f, trace m' = trace m ++ [(CONNECT host port, Some f)])
          ∧ sessions m'
            = (if remote_transport host port (world m) then S (sessions m)
               else sessions m)
          ∨ (∃ f, trace m' = trace m ++ [(CONNECT host port, None); (LOGIN user passwd, Some f)])
            ∧ sessions m' = S (sessions m))).
Proof.
  cbv zeta. unfold_adapter; tidy.
  destruct (remote_connect _ _ _) as [[f|[]] w] eqn:Hconnect; tidy.
  - split; [done|]. split; [done|]. right. split; [done|]. left. eauto.
  - destruct (remote_login _ _ _) as [[f|[]] w'] eqn:Hlogin; tidy;
      (split; [done|]); (split; [done|]); rewrite <- ?app_assoc; cbn [app].
    + right. split; [done|]. right. eauto.
    + by left.
Qed.

(** X2: No exception leaves an operation untranslated: whatever an operation
    raises is a [FuseOSError] whose code is one of the codes of the
    operation, never connection-refused and never a protocol exception. *)
Theorem raises_only_its_codes (op : operation) (m : machine W) e :
  (run op m).1 = Some e → ∃ code, e = FuseOSError code ∧ code ∈ codes op.
Proof.
  destruct op; symex; intros Hraised; tidy; simplify_eq;
    eexists; (split; [reflexivity|]); cbn [codes]; rewrite ?elem_of_cons; auto.
Qed.

(** X3: An operation only makes its own protocol calls, with the configured
    address and credentials and on its own path, and connects at most
    once: [readdir], [getattr] and [read] never store or delete,
    [readdir] of the root never changes directory, [getattr] of the root
    makes no call. *)
Theorem makes_only_its_calls (op : operation) (m : machine W) evs :
  trace (run op m).2 = trace m ++ evs →
  Forall (λ ev, own_command op (self m) ev.1) evs
  ∧ (length (List.filter is_connect evs) ≤ 1)%nat.
Proof.
  intros Htrace. destruct op; revert Htrace; symex; intros Htrace; read_trace Htrace;
    repeat match goal with
      | Hb : negb (String.eqb _ _) = true |- _ =>
          apply negb_true_iff, String.eqb_neq in Hb
      | Hb : String.eqb _ _ = false |- _ => apply String.eqb_neq in Hb
      end;
    (split; [|cbn [List.filter is_connect length]; lia]);
    repeat (apply Forall_cons; split); try apply Forall_nil; cbn; auto.
Qed.

(** X4: An operation opens at most one session and closes none but its
    own: when it hands control back, by returning or by raising, the
    sessions open are those open before the call and at most one more. *)
Theorem opens_at_most_one_session (op : operation) (m : machine W) :
  (sessions m ≤ sessions (run op m).2 ≤ S (sessions m))%nat.
Proof. destruct op; symex; tidy; lia. Qed.

End Sessions.

(** ** The directory cache over time *)

Section Cache.
Context {W : Type} `{Host W}.

(** What an operation does to the fields of [self]: nothing, unless it
    is a [readdir] of a directory that is not cached and it returns, in
    which case the names returned are cached under the path. *)
Lemma run_self (op : operation) (m : machine W) :
  self (run op m).2 = self m
  ∨ ∃ path names,
      op = Readdir path ∧ (run op m).1 = None
      ∧ _dir_cache (self m) !! path = None
      ∧ (readdir path m).1 = Return names
      ∧ self (run op m).2
        = Self (ftp_host (self m)) (ftp_port (self m)) (ftp_user (self m))
               (ftp_pass (self m)) (<[path := names]> (_dir_cache (self m))).
Proof.
  destruct op; try (left; symex; tidy; done).
  destruct (_dir_cache (self m) !! path) as [cached|] eqn:Hcache.
  - left. symex; tidy; done.
  - destruct (readdir path m) as [[names|e] m'] eqn:Hrun.
    + right. exists path, names. revert Hrun. symex; intros Hrun; tidy; simplify_eq; done.
    + left. revert Hrun. symex; intros Hrun; tidy; simplify_eq; done.
Qed.

Lemma run_keeps_cached (op : operation) (m : machine W) path names :
  _dir_cache (self m) !! path = Some names →
  _dir_cache (self (run op m).2) !! path = Some names
  ∧ ftp_host (self (run op m).2) = ftp_host (self m)
  ∧ ftp_port (self (run op m).2) = ftp_port (self m)
  ∧ ftp_user (self (run op m).2) = ftp_user (self m)
  ∧ ftp_pass (self (run op m).2) = ftp_pass (self m).
Proof.
  intros Hcached. destruct (run_self op m) as [->|(p & ns & _ & _ & Hmiss & _ & ->)]; [done|].
  cbn [_dir_cache ftp_host ftp_port ftp_user ftp_pass]. split; [|done].
  rewrite lookup_insert_ne; [done|]. intros ->. congruence.
Qed.

Lemma run_all_keeps_cached (ops : list operation) (m : machine W) path names :
  _dir_cache (self m) !! path = Some names →
  _dir_cache (self (run_all ops m)) !! path = Some names
  ∧ ftp_host (self (run_all ops m)) = ftp_host (self m)
  ∧ ftp_port (self (run_all ops m)) = ftp_port (self m)
  ∧ ftp_user (self (run_all ops m)) = ftp_user (self m)
  ∧ ftp_pass (self (run_all ops m)) = ftp_pass (self m).
Proof.
  revert m. induction ops as [|op ops IH]; intros m Hcached; cbn [run_all]; [done|].
  destruct (run_keeps_cached op m path names Hcached) as (Hstep & ? & ? & ? & ?).
  destruct (IH (released m (run op m).2) Hstep) as (? & ? & ? & ? & ?).
  cbn [released self] in *. repeat split; congruence.
Qed.

(** X5: The cache is never invalidated: a directory that is cached stays
    cached with the same names through every sequence of operations,
    writes and deletions included, and the address and credentials of
    the adapter never change. *)
Theorem cache_never_invalidated (ops : list operation) (m : machine W) path names :
  _dir_cache (self m) !! path = Some names →
  _dir_cache (self (run_all ops m)) !! path = Some names
  ∧ ftp_host (self (run_all ops m)) = ftp_host (self m)
  ∧ ftp_port (self (run_all ops m)) = ftp_port (self m)
  ∧ ftp_user (self (run_all ops m)) = ftp_user (self m)
  ∧ ftp_pass (self (run_all ops m)) = ftp_pass (self m).
Proof. apply run_all_keeps_cached. Qed.

(** X6: Nothing is cached on failure, and only [readdir] caches: an
    operation that raises, or that is not a [readdir], leaves every
    field of [self] as it was. *)
Theorem only_returning_readdir_caches (op : operation) (m : machine W) :
  (run op m).1 ≠ None ∨ (∀ path, op ≠ Readdir path) →
  self (run op m).2 = self m.
Proof.
  intros Hcase. destruct (run_self op m) as [Hsame|(p & ns & Hop & Hok & _)]; [done|].
  destruct Hcase as [Hraised|Hother]; [done|]. by destruct (Hother p).
Qed.

Lemma readdir_caches path (m : machine W) names :
  (readdir path m).1 = Return names →
  _dir_cache (self (readdir path m).2) !! path = Some names.
Proof.
  symex; intros Hret; tidy; simplify_eq; try done; apply lookup_insert_eq.
Qed.

Lemma readdir_hit path (m : machine W) names :
  _dir_cache (self m) !! path = Some names → readdir path m = (Return names, m).
Proof. intros Hcached. unfold_adapter; tidy. by rewrite Hcached. Qed.

(** X7: [readdir] is memoised for good: once a [readdir] of a path has
    returned, every later [readdir] of that path, after any operations
    whatever, returns the same names, makes no protocol call and changes
    nothing. *)
Theorem readdir_is_memoised path (m : machine W) names (ops : list operation) :
  (readdir path m).1 = Return names →
  readdir path (run_all ops (readdir path m).2)
  = (Return names, run_all ops (readdir path m).2).
Proof.
  intros Hret. apply readdir_hit.
  by apply run_all_keeps_cached, readdir_caches.
Qed.

End Cache.

(** ** Decimal numerals *)

Section Numerals.

Lemma decimal_char_facts (c : ascii) :
  Py.isdecimal_char c = true →
  Py.isspace c = false ∧ Py.int_blank c = false ∧ Py.isdigit_char c = true
  ∧ c ≠ "+"%char ∧ c ≠ "-"%char.
Proof.
  destruct c as [[] [] [] [] [] [] [] []]; vm_compute; intros Hc;
    first [discriminate Hc | repeat split; discriminate].
Qed.

Lemma pretty_N_char_decimal (d : N) :
  (d < 10)%N →
  Py.isdecimal_char (pretty_N_char d) = true
  ∧ Py.digit_value (pretty_N_char d) = Z.of_N d.
Proof.
  intros Hd.
  assert (d = 0 ∨ d = 1 ∨ d = 2 ∨ d = 3 ∨ d = 4 ∨ d = 5 ∨ d = 6 ∨ d = 7 ∨ d = 8 ∨ d = 9)%N
    as Hcases by lia.
  repeat destruct Hcases as [->|Hcases]; try subst d; by vm_compute.
Qed.

Lemma pretty_N_go_decimal (x : N) : ∀ s,
  decimal_only s = true → decimal_only (pretty_N_go x s) = true.
Proof.
  induction (N.lt_wf_0 x) as [x _ IH]. intros s Hs.
  assert (x = 0 ∨ 0 < x)%N as [->|Hpos] by lia; [by rewrite pretty_N_go_0|].
  rewrite pretty_N_go_step by done. apply IH.
  - apply N.div_lt; lia.
  - unfold decimal_only in *. cbn [list_ascii_of_string forallb].
    destruct (pretty_N_char_decimal (x `mod` 10)) as [-> _]; [|done].
    apply N.mod_lt. lia.
Qed.

Lemma pretty_N_go_nonempty (x : N) : ∀ s, s ≠ "" → pretty_N_go x s ≠ "".
Proof.
  induction (N.lt_wf_0 x) as [x _ IH]. intros s Hs.
  assert (x = 0 ∨ 0 < x)%N as [->|Hpos] by lia; [by rewrite pretty_N_go_0|].
  rewrite pretty_N_go_step by done. apply IH; [|done].
  apply N.div_lt; lia.
Qed.

Lemma int_digits_pretty_N_go (x : N) : ∀ s,
  Py.int_digits 0 false (pretty_N_go x s) = Py.int_digits (Z.of_N x) false s.
Proof.
  induction (N.lt_wf_0 x) as [x _ IH]. intros s.
  assert (x = 0 ∨ 0 < x)%N as [->|Hpos] by lia; [by rewrite pretty_N_go_0|].
  rewrite pretty_N_go_step by done. rewrite IH by (apply N.div_lt; lia).
  cbn [Py.int_digits].
  destruct (pretty_N_char_decimal (x `mod` 10)) as [-> ->]; [apply N.mod_lt; lia|].
  f_equal. rewrite (N.div_mod x 10) at 3 by lia. lia.
Qed.

Lemma pretty_N_decimal (n : N) :
  decimal_only (pretty n) = true ∧ pretty n ≠ "".
Proof.
  unfold pretty, pretty_N. case_decide as Hn; [done|]. split.
  - by apply pretty_N_go_decimal.
  - rewrite pretty_N_go_step by lia. by apply pretty_N_go_nonempty.
Qed.

Lemma rstrip_decimal (s : string) :
  decimal_only s = true → Py.rstrip_by Py.int_blank s = s.
Proof.
  unfold decimal_only. induction s as [|c s IH]; [done|].
  cbn [list_ascii_of_string forallb Py.rstrip_by]. intros [Hc Hs]%andb_true_iff.
  rewrite (IH Hs). destruct (decimal_char_facts c Hc) as (_ & -> & _).
  by destruct s.
Qed.

Lemma digit_count_decimal (s : string) :
  decimal_only s = true → Py.digit_count s = N.of_nat (String.length s).
Proof.
  unfold Py.digit_count, decimal_only. intros Hs. f_equal.
  induction s as [|c s IH]; [done|].
  cbn [list_ascii_of_string forallb List.filter String.length] in *.
  apply andb_true_iff in Hs as [-> Hs]. cbn [length]. by rewrite IH.
Qed.

(** [int] reads a decimal numeral of at most 4300 digits from left to
    right, and refuses a longer one. *)
Lemma int_decimal (s : string) :
  decimal_only s = true → s ≠ "" →
  Py.int s = if (String.length s <=? 4300)%nat then Py.int_digits 0 false s else None.
Proof.
  intros Hs Hne. unfold Py.int. rewrite (rstrip_decimal s Hs).
  assert (Py.int_capped s
          = if (String.length s <=? 4300)%nat then Py.int_digits 0 false s else None)
    as Hcapped.
  { unfold Py.int_capped, Py.max_str_digits. rewrite (digit_count_decimal s Hs).
    destruct (Nat.leb_spec (String.length s) 4300) as [Hle|Hgt].
    - destruct (N.ltb_spec 4300 (N.of_nat (String.length s))) as [?|_]; [lia|].
      destruct s as [|c r]; [done|]. unfold decimal_only in Hs.
      cbn [list_ascii_of_string forallb] in Hs. apply andb_true_iff in Hs as [Hc Hr].
      cbn [Py.int_unsigned Py.int_digits]. rewrite Hc.
      by replace (10 * 0 + Py.digit_value c) with (Py.digit_value c) by lia.
    - destruct (N.ltb_spec 4300 (N.of_nat (String.length s))) as [_|?]; [done|lia]. }
  rewrite <- Hcapped.
  destruct s as [|c r]; [done|]. unfold decimal_only in Hs.
  cbn [list_ascii_of_string forallb] in Hs. apply andb_true_iff in Hs as [Hc Hr].
  destruct (decimal_char_facts c Hc) as (_ & Hblank & _).
  cbn [Py.lstrip_by]. rewrite Hblank.
  revert Hc. clear.
  destruct c as [[] [] [] [] [] [] [] []]; intros Hc;
    first [reflexivity | vm_compute in Hc; discriminate Hc].
Qed.

(** Printing a number and reading it back with [int] gives the number,
    as long as the numeral has no more than 4300 digits. *)
Lemma int_pretty (n : N) :
  Py.int (pretty n)
  = if (String.length (pretty n) <=? 4300)%nat then Some (Z.of_N n) else None.
Proof.
  destruct (pretty_N_decimal n) as [Hdec Hne]. rewrite int_decimal by done.
  destruct (String.length (pretty n) <=? 4300)%nat; [|done].
  unfold pretty, pretty_N. case_decide as Hn; [by subst|].
  by rewrite int_digits_pretty_N_go.
Qed.

(** A number below [10 ^ k] prints in at most [k] digits. *)
Lemma pretty_N_go_length (x : N) : ∀ (k : nat) s,
  (x < 10 ^ N.of_nat k)%N →
  (String.length (pretty_N_go x s) ≤ String.length s + k)%nat.
Proof.
  induction (N.lt_wf_0 x) as [x _ IH]. intros k s Hx.
  assert (x = 0 ∨ 0 < x)%N as [->|Hpos] by lia.
  { rewrite pretty_N_go_0. lia. }
  rewrite pretty_N_go_step by done.
  destruct k as [|k]; [cbn in Hx; lia|].
  etrans; [apply (IH (x `div` 10)%N) with (k := k)|].
  - apply N.div_lt; lia.
  - apply N.Div0.div_lt_upper_bound.
    rewrite Nat2N.inj_succ, N.pow_succ_r' in Hx. lia.
  - cbn [String.length]. lia.
Qed.

Lemma pretty_length (n : N) (k : nat) :
  (n < 10 ^ N.of_nat (S k))%N → (String.length (pretty n) ≤ S k)%nat.
Proof.
  intros Hn. unfold pretty, pretty_N. case_decide as H0.
  - cbn. lia.
  - pose proof (pretty_N_go_length n (S k) "" Hn) as Hlen. cbn [String.length] in Hlen. lia.
Qed.

Lemma isdigit_decimal (s : string) :
  decimal_only s = true → s ≠ "" → Py.isdigit s = true.
Proof.
  intros Hs Hne. destruct s as [|c r]; [done|]. unfold Py.isdigit.
  revert Hs. unfold decimal_only. generalize (String c r). clear.
  intros s. induction s as [|c s IH]; [done|].
  cbn [list_ascii_of_string forallb]. intros [Hc Hs]%andb_true_iff.
  destruct (decimal_char_facts c Hc) as (_ & _ & -> & _). by apply IH.
Qed.

Lemma token_decimal (s : string) : decimal_only s = true → Py.token s = (s, "").
Proof.
  unfold decimal_only. induction s as [|c s IH]; [done|].
  cbn [list_ascii_of_string forallb Py.token]. intros [Hc Hs]%andb_true_iff.
  destruct (decimal_char_facts c Hc) as (-> & _). by rewrite (IH Hs).
Qed.

(** The fields of a reply made of a three-digit code, a space and a
    decimal numeral. *)
Lemma split_reply (code d : string) :
  decimal_only code = true → code ≠ "" → decimal_only d = true → d ≠ "" →
  Py.split_all (code +:+ " " +:+ d) = [code; d].
Proof.
  intros Hcode Hcne Hd Hdne. unfold Py.split_all.
  assert (∀ s, decimal_only s = true →
            Py.token (s +:+ " " +:+ d) = (s, " " +:+ d)) as Htoken.
  { intros s. unfold decimal_only. induction s as [|c s IH]; [reflexivity|].
    cbn [list_ascii_of_string forallb]. intros [Hc Hs]%andb_true_iff.
    change (String c s +:+ " " +:+ d) with (String c (s +:+ " " +:+ d)).
    cbn [Py.token]. destruct (decimal_char_facts c Hc) as (-> & _).
    by rewrite IH. }
  destruct code as [|c code]; [done|]. destruct d as [|c' d]; [done|].
  assert (Hc : Py.isdecimal_char c = true).
  { unfold decimal_only in Hcode. cbn in Hcode. by apply andb_true_iff in Hcode as [? _]. }
  assert (Hc' : Py.isdecimal_char c' = true).
  { unfold decimal_only in Hd. cbn in Hd. by apply andb_true_iff in Hd as [? _]. }
  change (String c code +:+ " " +:+ String c' d)
    with (String c (code +:+ " " +:+ String c' d)).
  cbn [String.length Py.split Py.lstrip Py.lstrip_by].
  destruct (decimal_char_facts c Hc) as (-> & _).
  change (String c (code +:+ " " +:+ String c' d))
    with (String c code +:+ " " +:+ String c' d).
  rewrite Htoken by done.
  destruct (String.length (code +:+ " " +:+ String c' d)) as [|k] eqn:Hlen.
  { exfalso. clear -Hlen. induction code; discriminate. }
  change (" " +:+ String c' d) with (String " " (String c' d)).
  cbn [Py.split Py.lstrip Py.lstrip_by]. change (Py.isspace " ") with true. cbn iota.
  destruct (decimal_char_facts c' Hc') as (-> & _).
  rewrite (token_decimal (String c' d) Hd).
  by destruct k.
Qed.

End Numerals.

(** ** Attributes of paths other than the root *)

Section Attributes.
Context {W : Type} `{Host W}.

Lemma path_not_root (path : string) : path ≠ "/" → String.eqb path "/" = false.
Proof. intros Hne. by apply String.eqb_neq. Qed.

(** X11: [getattr] never reports a directory below the root: when it returns
    for a path other than the root, the record is that of a regular file
    with permissions 0o644, one link and three equal timestamps. *)
Theorem getattr_reports_regular_file path (m : machine W) a :
  path ≠ "/" →
  (getattr path m).1 = Return a →
  (∃ file_size mtime, a = file_attributes file_size mtime)
  ∧ st_mode a = Z.lor stat.S_IFREG o644
  ∧ Z.land (st_mode a) 61440 = stat.S_IFREG
  ∧ st_nlink a = 1
  ∧ st_ctime a = st_mtime a ∧ st_atime a = st_mtime a.
Proof.
  intros Hpath%path_not_root. unfold_adapter; tidy. rewrite Hpath.
  repeat (case_inner; tidy); intros Hret; simplify_eq;
    (split; [by eexists _, _|done]).
Qed.

(** What [getattr] makes of the answer to SIZE, once the session is
    established: the number of a reply [213 n], or 0 when [int] refuses
    the numeral for its length. *)
Lemma getattr_size_of_reply path (m : machine W) w1 w2 w3 (n : N) a :
  path ≠ "/" →
  remote_connect (ftp_host (self m)) (ftp_port (self m)) (world m) = (inr (), w1) →
  remote_login (ftp_user (self m)) (ftp_pass (self m)) w1 = (inr (), w2) →
  remote_sendcmd ("SIZE " +:+ path) w2 = (inr ("213 " +:+ pretty n), w3) →
  (getattr path m).1 = Return a →
  st_size a = if (String.length (pretty n) <=? 4300)%nat then Z.of_N n else 0.
Proof.
  intros Hpath%path_not_root Hconnect Hlogin Hsize.
  destruct (pretty_N_decimal n) as [Hdec Hne].
  unfold_adapter; tidy. rewrite Hpath, Hconnect; tidy. rewrite Hlogin; tidy.
  rewrite Hsize; tidy.
  change ("213 " +:+ pretty n) with ("213" +:+ " " +:+ pretty n).
  replace (Py.startswith ("213" +:+ " " +:+ pretty n) "213") with true
    by (unfold Py.startswith; by rewrite prefix_append).
  rewrite (split_reply "213" (pretty n)) by done.
  cbn [lookup list_lookup]. rewrite int_pretty.
  destruct (String.length (pretty n) <=? 4300)%nat; tidy;
    repeat (case_inner; tidy); intros Hret; by simplify_eq.
Qed.

(** X12: The size [getattr] reports is the number of the reply to SIZE:
    when the server answers [213 n] with a numeral of at most 4300
    digits, the record that [getattr] returns has size [n]; with a
    longer numeral [int] raises, the failure is swallowed and the size
    is 0. *)
Theorem getattr_size_is_the_reply path (m : machine W) w1 w2 w3 (n : N) a :
  path ≠ "/" →
  remote_connect (ftp_host (self m)) (ftp_port (self m)) (world m) = (inr (), w1) →
  remote_login (ftp_user (self m)) (ftp_pass (self m)) w1 = (inr (), w2) →
  remote_sendcmd ("SIZE " +:+ path) w2 = (inr ("213 " +:+ pretty n), w3) →
  (getattr path m).1 = Return a →
  st_size a = if (String.length (pretty n) <=? 4300)%nat then Z.of_N n else 0.
Proof. apply getattr_size_of_reply. Qed.

(** X13: A path the server does not know still has attributes: when both
    probes, SIZE and MDTM, fail, for whatever reason, and [quit]
    succeeds, [getattr] returns a regular file of size 0 stamped with the
    current time. *)
Theorem getattr_of_unknown_path path (m : machine W) w1 w2 f1 w3 f2 w4 w5 :
  path ≠ "/" →
  remote_connect (ftp_host (self m)) (ftp_port (self m)) (world m) = (inr (), w1) →
  remote_login (ftp_user (self m)) (ftp_pass (self m)) w1 = (inr (), w2) →
  remote_sendcmd ("SIZE " +:+ path) w2 = (inl f1, w3) →
  remote_sendcmd ("MDTM " +:+ path) w3 = (inl f2, w4) →
  remote_quit w4 = (inr (), w5) →
  (getattr path m).1 = Return (file_attributes 0 (clock (ticks m)))
  ∧ sessions (getattr path m).2 = sessions m.
Proof.
  intros Hpath%path_not_root Hconnect Hlogin Hsize Hmdtm Hquit.
  unfold_adapter; tidy. rewrite Hpath, Hconnect; tidy. rewrite Hlogin; tidy.
  rewrite Hsize; tidy. rewrite Hmdtm; tidy. rewrite Hquit; tidy. done.
Qed.

(** [getattr] of a path other than the root returns whenever the session
    is established and [quit] is never refused. *)
Lemma getattr_returns path (m : machine W) w1 w2 :
  path ≠ "/" →
  remote_connect (ftp_host (self m)) (ftp_port (self m)) (world m) = (inr (), w1) →
  remote_login (ftp_user (self m)) (ftp_pass (self m)) w1 = (inr (), w2) →
  (∀ w, ∃ w', remote_quit w = (inr (), w')) →
  ∃ a, (getattr path m).1 = Return a.
Proof.
  intros Hpath%path_not_root Hconnect Hlogin Hquit.
  unfold_adapter; tidy. rewrite Hpath, Hconnect; tidy. rewrite Hlogin; tidy.
  repeat (case_inner; tidy); eauto;
    match goal with Hq : remote_quit ?w = (inl _, _) |- _ =>
      destruct (Hquit w) as [? Hq']; congruence end.
Qed.

End Attributes.

(** ** More on listings *)

Section ListingFields.
Context {W : Type} `{Host W}.

(** X10: The size of an entry, field by field: a fifth field that is the
    decimal numeral of [n], of at most 4300 digits, gives size [n]; a
    fifth field that holds a character that is no digit gives size 0. In
    both cases the line is filed, under its name, and the parse goes
    on. *)
Theorem entry_size_of_field files line (m : machine W) name (n : N) :
  line_name line = Some name →
  nth 4 (Py.split 8 line) "" = pretty n ∧ (String.length (pretty n) ≤ 4300)%nat
  ∨ Py.isdigit (nth 4 (Py.split 8 line) "") = false ∧ n = 0%N →
  ∃ e, (_ftp_list_to_files_line files line m).1 = Return (dict_set files name e)
       ∧ size e = Z.of_N n ∧ describes line e.
Proof.
  intros Hname Hfield.
  assert (line_size line = Some (Z.of_N n)) as Hsize.
  { unfold line_size. destruct Hfield as [[-> Hlen]|[-> ->]]; [|done].
    destruct (pretty_N_decimal n) as [Hdec Hne].
    rewrite isdigit_decimal by done. rewrite int_pretty.
    by apply Nat.leb_le in Hlen as ->. }
  destruct (_ftp_list_to_files_line_returns files line m) as [files' Hret].
  { intros _. by rewrite Hsize. }
  pose proof (_ftp_list_to_files_line_spec files line m files' Hret) as Hspec.
  rewrite Hname in Hspec. destruct Hspec as (e & -> & Hdesc).
  exists e. split; [done|]. split; [|done].
  destruct Hdesc as (_ & _ & Hsz & _). rewrite Hsize in Hsz. by injection Hsz.
Qed.

(** A numeral of more than 4300 digits in the size field makes the parse
    raise, like a digit that is no decimal digit. *)
Lemma long_size_field_raises files line (m : machine W) name (n : N) :
  line_name line = Some name →
  nth 4 (Py.split 8 line) "" = pretty n → (4300 < String.length (pretty n))%nat →
  (_ftp_list_to_files_line files line m).1 = Raise (Exception "ValueError").
Proof.
  intros Hname Hfield Hlen. destruct (pretty_N_decimal n) as [Hdec Hne].
  apply Nat.leb_gt in Hlen.
  unfold _ftp_list_to_files_line; unfold_adapter.
  rewrite Hfield, isdigit_decimal, int_pretty, Hlen by done.
  unfold line_name in Hname.
  destruct (String.eqb (Py.strip line) ""); [discriminate Hname|].
  destruct (length (Py.split 8 line) <? 9)%nat; [discriminate Hname|]. done.
Qed.

Lemma lstrip_head (s : string) :
  match Py.lstrip s with
  | String c _ => Py.isspace c = false
  | EmptyString => True
  end.
Proof.
  unfold Py.lstrip. induction s as [|c s IH]; [done|]. cbn [Py.lstrip_by].
  by destruct (Py.isspace c) eqn:Hc.
Qed.

Lemma token_head (c : ascii) (r : string) :
  Py.isspace c = false → ∃ t, (Py.token (String c r)).1 = String c t.
Proof.
  intros Hc. cbn [Py.token]. rewrite Hc. destruct (Py.token r) as [t u]. by exists t.
Qed.

(** No field of a split is empty or starts with a blank. *)
Lemma split_fields (k : nat) : ∀ s field,
  field ∈ Py.split k s → ∃ c r, field = String c r ∧ Py.isspace c = false.
Proof.
  induction k as [|k IH]; intros s field; cbn [Py.split];
    pose proof (lstrip_head s) as Hhead; destruct (Py.lstrip s) as [|c r] eqn:Hs.
  - by intros ?%elem_of_nil.
  - intros ->%list_elem_of_singleton. eauto.
  - by intros ?%elem_of_nil.
  - destruct (token_head c r Hhead) as [t Ht].
    destruct (Py.token (String c r)) as [t' u]. cbn [fst] in Ht. subst t'.
    intros [->|Hin]%elem_of_cons; [eauto|]. by apply (IH u).
Qed.

(** X9: Every name [readdir] takes from a listing is a non-empty string that
    does not start with a blank: the dictionary of a listing has no
    empty key. *)
Theorem listed_names_are_not_blank listing (m : machine W) files name :
  (_ftp_list_to_files listing m).1 = Return files →
  name ∈ dict_keys files →
  ∃ c r, name = String c r ∧ Py.isspace c = false.
Proof.
  intros Hparse Hin.
  destruct (_ftp_list_to_files_spec listing m files Hparse) as [[_ Hnames] _].
  apply Hnames, list_elem_of_fmap in Hin as (line & Hline & _).
  unfold line_name in Hline. repeat case_match; simplify_eq.
  apply (split_fields 8 line). apply list_elem_of_In, nth_In.
  match goal with Hlen : (_ <? 9)%nat = false |- _ => apply Nat.ltb_ge in Hlen end. lia.
Qed.

End ListingFields.

(** ** The order of the names *)

Section Order.
Context {W : Type} `{Host W}.

Lemma dict_keys_set_order {V} (d : list (string * V)) k v :
  dict_keys (dict_set d k v)
  = if decide (k ∈ dict_keys d) then dict_keys d else dict_keys d ++ [k].
Proof.
  unfold dict_keys. induction d as [|[k' v'] d IH]; cbn [dict_set map fst].
  - case_decide as Hin; [by apply elem_of_nil in Hin|done].
  - destruct (String.eqb_spec k' k) as [->|Hne]; cbn [map fst].
    + rewrite decide_True by (apply elem_of_cons; auto). done.
    + rewrite IH. case_decide as Hin.
      * rewrite decide_True; [done|]. apply elem_of_cons. by right.
      * rewrite decide_False; [done|]. rewrite elem_of_cons. intros [->|?]; done.
Qed.

(** The names in the order of their first lines. *)
Lemma first_lines_snoc (names : list string) (k : string) :
  reverse (remove_dups (reverse (names ++ [k])))
  = if decide (k ∈ reverse (remove_dups (reverse names)))
    then reverse (remove_dups (reverse names))
    else reverse (remove_dups (reverse names)) ++ [k].
Proof.
  rewrite reverse_snoc. cbn [remove_dups].
  assert (k ∈ reverse (remove_dups (reverse names)) ↔ k ∈ reverse names) as Hin.
  { by rewrite elem_of_reverse, elem_of_remove_dups. }
  destruct (decide_rel elem_of k (reverse names)) as [Hk|Hk].
  - rewrite decide_True; [done|]. by apply Hin.
  - rewrite decide_False; [|by rewrite Hin]. by rewrite reverse_cons.
Qed.

Lemma for_each_line_order listing : ∀ acc (m : machine W) files seen,
  dict_keys acc = reverse (remove_dups (reverse seen)) →
  (for_each _ftp_list_to_files_line acc listing m).1 = Return files →
  dict_keys files = reverse (remove_dups (reverse (seen ++ omap line_name listing))).
Proof.
  induction listing as [|line listing IH]; intros acc m files seen Hacc; cbn [for_each].
  - intros [= <-]. by rewrite app_nil_r.
  - unfold mbind, M_bind.
    pose proof (_ftp_list_to_files_line_spec acc line m) as Hline.
    destruct (_ftp_list_to_files_line acc line m) as [[acc'|e'] m1]; [|done].
    specialize (Hline acc' eq_refl). intros Hrest. cbn [omap list_omap].
    destruct (line_name line) as [k|] eqn:Hname.
    + destruct Hline as (e0 & -> & _).
      replace (seen ++ k :: omap line_name listing)
        with ((seen ++ [k]) ++ omap line_name listing) by by rewrite <- app_assoc.
      eapply IH; [|exact Hrest].
      by rewrite dict_keys_set_order, first_lines_snoc, Hacc.
    + subst acc'. by eapply IH.
Qed.

(** X8: A [readdir] that asks the server lists ['.'], ['..'] and then the
    names of the lines kept, each once, in the order in which the names
    first occur in the listing. *)
Theorem readdir_lists_in_order_of_first_lines path (m : machine W) names :
  _dir_cache (self m) !! path = None →
  (readdir path m).1 = Return names →
  ∃ w w' listing,
    remote_retrlines "LIST" w = (inr listing, w')
    ∧ names = "." :: ".." :: reverse (remove_dups (reverse (omap line_name listing))).
Proof.
  intros Hmiss. symex; intros Hret; tidy; simplify_eq.
  all: match goal with Hp : _ftp_list_to_files ?l ?m0 = (Return ?files, _) |- _ =>
         pose proof (for_each_line_order l [] m0 files [] eq_refl) as Horder;
         unfold _ftp_list_to_files in Hp; rewrite Hp in Horder;
         specialize (Horder eq_refl); cbn [app] in Horder
       end.
  all: eexists _, _, _; split; [eassumption|]; by rewrite Horder.
Qed.

End Order.

(** ** Deleting and stating on the reference endpoint *)

Section EndpointMore.
Context (clk : nat → Z) (strp : string → option Z).
Let host : Host endpoint := Endpoint.host clk strp.
Local Existing Instance host.

(** What an [unlink] that returns has found and left on the endpoint. *)
Lemma unlink_returns_world path (m : machine endpoint) :
  (unlink path m).1 = Return () →
  self (unlink path m).2 = self m
  ∧ reachable (world (unlink path m).2) = true
  ∧ accepts_login (world (unlink path m).2) = true
  ∧ Endpoint.legal (ftp_user (self m)) && Endpoint.legal (ftp_pass (self m)) = true
  ∧ Endpoint.legal path = true
  ∧ is_Some (objects (world m) !! path)
  ∧ objects (world (unlink path m).2) = base.delete path (objects (world m)).
Proof.
  destruct m as [s [r a wr o l st cd] k t c].
  unfold_adapter; tidy.
  cbn [remote_connect remote_login remote_delete remote_quit host Endpoint.host].
  unfold Endpoint.connect, Endpoint.login, Endpoint.delete, Endpoint.quit,
    Endpoint.with_current_dir, Endpoint.with_objects.
  repeat (case_inner; tidy; cbn [reachable accepts_login writable objects] in * );
    intros Hret; simplify_eq.
  repeat match goal with Hl : negb _ = false |- _ => apply negb_false_iff in Hl end.
  repeat split; done.
Qed.

(** X14: On the reference endpoint, an [unlink] that returns has removed the
    object at [path], which existed, and no other; a [read] of the path
    that follows raises not-found. *)
Theorem unlink_removes_object path (m : machine endpoint) :
  (unlink path m).1 = Return () →
  is_Some (objects (world m) !! path)
  ∧ objects (world (unlink path m).2) !! path = None
  ∧ (∀ other, other ≠ path →
       objects (world (unlink path m).2) !! other = objects (world m) !! other)
  ∧ ∀ size offset,
      (read path size offset (unlink path m).2).1 = Raise (FuseOSError errno.ENOENT).
Proof.
  intros Hret.
  destruct (unlink_returns_world path m Hret)
    as (Hself & Hreach & Hlogin & Hcred & Hpath & Hwas & Hobjects).
  split; [done|]. split; [by rewrite Hobjects, lookup_delete_eq|].
  split; [intros other Hother; by rewrite Hobjects, lookup_delete_ne|].
  intros size offset. clear Hret Hwas.
  set (m' := (unlink path m).2) in *. clearbody m'.
  unfold_adapter; tidy.
  cbn [remote_connect remote_login remote_retrbinary remote_quit host Endpoint.host].
  unfold Endpoint.connect. rewrite Hreach. tidy.
  unfold Endpoint.login. rewrite Hself, Hcred.
  cbn [negb accepts_login Endpoint.with_current_dir]. rewrite Hlogin. tidy.
  unfold Endpoint.retrbinary. rewrite argument_append, legal_append, Hpath.
  cbn [negb andb Endpoint.legal objects Endpoint.with_current_dir].
  change (Endpoint.legal "RETR ") with true. cbn [negb andb].
  rewrite Hobjects, lookup_delete_eq. tidy. cbn [feed]. tidy. reflexivity.
Qed.

(** X15: On the reference endpoint, [unlink] of a path that holds no object
    raises not-found and removes nothing. *)
Theorem unlink_of_missing_object path (m : machine endpoint) :
  reachable (world m) = true → accepts_login (world m) = true →
  Endpoint.legal (ftp_user (self m)) && Endpoint.legal (ftp_pass (self m)) = true →
  Endpoint.legal path = true →
  objects (world m) !! path = None →
  (unlink path m).1 = Raise (FuseOSError errno.ENOENT)
  ∧ objects (world (unlink path m).2) = objects (world m).
Proof.
  intros Hreach Hlogin Hcred Hpath Hmissing.
  unfold_adapter; tidy.
  cbn [remote_connect remote_login remote_delete remote_quit host Endpoint.host].
  unfold Endpoint.connect. rewrite Hreach. tidy.
  unfold Endpoint.login. rewrite Hcred.
  cbn [negb accepts_login Endpoint.with_current_dir]. rewrite Hlogin. tidy.
  unfold Endpoint.delete. rewrite Hpath.
  cbn [negb objects Endpoint.with_current_dir]. rewrite Hmissing. tidy.
  split; reflexivity.
Qed.

(** A [write] that returns was given fewer than 2^63 bytes. *)
Lemma write_returns_sendable path data (offset : Z) (m : machine endpoint) n :
  (write path data offset m).1 = Return n → Endpoint.sendable data = true.
Proof.
  unfold_adapter; tidy.
  cbn [remote_connect remote_login remote_storbinary remote_quit host Endpoint.host].
  unfold Endpoint.storbinary.
  destruct (Endpoint.sendable data); [done|].
  repeat (case_inner; tidy); intros Hret; simplify_eq.
Qed.

(** X16: On the reference endpoint, after a [write] that returns, [getattr]
    of the same path returns a record whose size is the length of the
    data written. *)
Theorem write_then_getattr_size path data (offset : Z) (m : machine endpoint) n :
  path ≠ "/" →
  (write path data offset m).1 = Return n →
  ∃ a, (getattr path (write path data offset m).2).1 = Return a
       ∧ st_size a = Z.of_nat (length data).
Proof.
  intros Hroot Hret.
  destruct (write_returns_world clk strp path data offset m n Hret)
    as (Hself & Hreach & Hlogin & Hcred & Hpath & Hobjects).
  pose proof (write_returns_sendable path data offset m n Hret) as Hshort.
  set (m' := (write path data offset m).2) in *.
  assert (remote_connect (ftp_host (self m')) (ftp_port (self m')) (world m')
          = (inr (), Endpoint.with_current_dir "/" (world m'))) as Hconnect.
  { cbn [remote_connect host Endpoint.host]. unfold Endpoint.connect. by rewrite Hreach. }
  assert (remote_login (ftp_user (self m')) (ftp_pass (self m'))
            (Endpoint.with_current_dir "/" (world m'))
          = (inr (), Endpoint.with_current_dir "/" (world m'))) as Hlog.
  { cbn [remote_login host Endpoint.host]. unfold Endpoint.login.
    rewrite Hself, Hcred. cbn [negb accepts_login Endpoint.with_current_dir].
    by rewrite Hlogin. }
  destruct (getattr_returns path m' _ _ Hroot Hconnect Hlog) as [a Ha].
  { intros w. by exists w. }
  exists a. split; [done|].
  assert (String.length (pretty (N.of_nat (length data))) ≤ 4300)%nat as Hdigits.
  { etrans; [apply (pretty_length _ 18)|lia].
    unfold Endpoint.sendable in Hshort. apply Z.leb_le in Hshort.
    assert (10 ^ N.of_nat 19 = 10000000000000000000)%N as -> by (vm_compute; reflexivity).
    lia. }
  apply Nat.leb_le in Hdigits.
  rewrite <- nat_N_Z.
  erewrite (getattr_size_of_reply path m' _ _ _ (N.of_nat (length data)) a Hroot Hconnect Hlog);
    [by rewrite Hdigits| |done].
  cbn [remote_sendcmd host Endpoint.host]. unfold Endpoint.sendcmd.
  rewrite argument_append, legal_append, Hpath.
  cbn [negb andb objects Endpoint.with_current_dir].
  change (Endpoint.legal "SIZE ") with true. cbn [negb andb].
  rewrite Hobjects, lookup_insert_eq. reflexivity.
Qed.

End EndpointMore.

(** ** The further properties at concrete inputs *)

Section MoreWitnesses.
Local Existing Instance Sample.host.
Import Sample.

Lemma raises_only_its_codes_witness :
  (run (Readdir "/nope") (Endpoint.mounted store)).1 = Some (FuseOSError errno.ENOENT)
  ∧ ∃ code, FuseOSError errno.ENOENT = FuseOSError code ∧ code ∈ codes (Readdir "/nope").
Proof.
  split; [vm_compute; reflexivity|].
  apply (raises_only_its_codes (Readdir "/nope") (Endpoint.mounted store)).
  vm_compute; reflexivity.
Defined.

Lemma makes_only_its_calls_witness :
  trace (run (Write "/data/x" hello 0) (Endpoint.mounted store)).2
  = trace (Endpoint.mounted store)
    ++ [(CONNECT "localhost" 2121, None); (LOGIN "root" "fake.jwt.token", None);
        (STORBINARY "STOR /data/x" hello, None); (QUIT, None)]
  ∧ Forall (λ ev : command * option failure,
              own_command (Write "/data/x" hello 0) (self (Endpoint.mounted store)) ev.1)
      [(CONNECT "localhost" 2121, None); (LOGIN "root" "fake.jwt.token", None);
       (STORBINARY "STOR /data/x" hello, None); (QUIT, None)]
  ∧ (length (List.filter is_connect
       [(CONNECT "localhost" 2121, None); (LOGIN "root" "fake.jwt.token", None);
        (STORBINARY "STOR /data/x" hello, None); (QUIT, None)]) ≤ 1)%nat.
Proof.
  split; [vm_compute; reflexivity|].
  apply (makes_only_its_calls (Write "/data/x" hello 0) (Endpoint.mounted store)).
  vm_compute; reflexivity.
Defined.

Lemma cache_never_invalidated_witness :
  let m := (readdir "/" (Endpoint.mounted store)).2 in
  _dir_cache (self m) !! "/" = Some ["."; ".."; "users"; "notes.txt"]
  ∧ _dir_cache (self (run_all Day.busy m)) !! "/" = Some ["."; ".."; "users"; "notes.txt"]
  ∧ ftp_host (self (run_all Day.busy m)) = ftp_host (self m)
  ∧ ftp_port (self (run_all Day.busy m)) = ftp_port (self m)
  ∧ ftp_user (self (run_all Day.busy m)) = ftp_user (self m)
  ∧ ftp_pass (self (run_all Day.busy m)) = ftp_pass (self m).
Proof.
  intros m. split; [vm_compute; reflexivity|].
  apply (cache_never_invalidated Day.busy m "/" ["."; ".."; "users"; "notes.txt"]).
  vm_compute; reflexivity.
Defined.

Lemma only_returning_readdir_caches_witness :
  (run (Readdir "/nope") (Endpoint.mounted store)).1 ≠ None
  ∧ self (run (Readdir "/nope") (Endpoint.mounted store)).2 = self (Endpoint.mounted store).
Proof.
  assert ((run (Readdir "/nope") (Endpoint.mounted store)).1 ≠ None) as Hraised.
  { vm_compute. discriminate. }
  split; [exact Hraised|].
  apply (only_returning_readdir_caches (Readdir "/nope") (Endpoint.mounted store)).
  left. exact Hraised.
Defined.

Lemma readdir_is_memoised_witness :
  (readdir "/" (Endpoint.mounted store)).1 = Return ["."; ".."; "users"; "notes.txt"]
  ∧ readdir "/" (run_all Day.busy (readdir "/" (Endpoint.mounted store)).2)
    = (Return ["."; ".."; "users"; "notes.txt"],
       run_all Day.busy (readdir "/" (Endpoint.mounted store)).2).
Proof.
  split; [vm_compute; reflexivity|].
  apply (readdir_is_memoised "/" (Endpoint.mounted store)).
  vm_compute; reflexivity.
Defined.

Lemma getattr_reports_regular_file_witness :
  "/data/x" ≠ "/"
  ∧ (getattr "/data/x" (Endpoint.mounted store)).1 = Return (file_attributes 16 1756135043)
  ∧ ((∃ file_size mtime, file_attributes 16 1756135043 = file_attributes file_size mtime)
     ∧ st_mode (file_attributes 16 1756135043) = Z.lor stat.S_IFREG o644
     ∧ Z.land (st_mode (file_attributes 16 1756135043)) 61440 = stat.S_IFREG
     ∧ st_nlink (file_attributes 16 1756135043) = 1
     ∧ st_ctime (file_attributes 16 1756135043) = st_mtime (file_attributes 16 1756135043)
     ∧ st_atime (file_attributes 16 1756135043) = st_mtime (file_attributes 16 1756135043)).
Proof.
  split; [discriminate|]. split; [vm_compute; reflexivity|].
  apply (getattr_reports_regular_file "/data/x" (Endpoint.mounted store));
    [discriminate | vm_compute; reflexivity].
Defined.

Lemma getattr_size_is_the_reply_witness :
  "/data/x" ≠ "/"
  ∧ remote_connect "localhost" 2121 store = (inr (), store)
  ∧ remote_login "root" "fake.jwt.token" store = (inr (), store)
  ∧ remote_sendcmd ("SIZE " +:+ "/data/x") store = (inr ("213 " +:+ pretty 16%N), store)
  ∧ (getattr "/data/x" (Endpoint.mounted store)).1 = Return (file_attributes 16 1756135043)
  ∧ st_size (file_attributes 16 1756135043)
    = if (String.length (pretty 16%N) <=? 4300)%nat then Z.of_N 16 else 0.
Proof.
  split; [discriminate|]. split; [reflexivity|]. split; [reflexivity|].
  split; [vm_compute; reflexivity|]. split; [vm_compute; reflexivity|].
  apply (getattr_size_is_the_reply "/data/x" (Endpoint.mounted store) store store store 16);
    [discriminate | reflexivity | reflexivity | vm_compute; reflexivity
    | vm_compute; reflexivity].
Defined.

Lemma getattr_of_unknown_path_witness :
  "/nope" ≠ "/"
  ∧ remote_connect "localhost" 2121 store = (inr (), store)
  ∧ remote_login "root" "fake.jwt.token" store = (inr (), store)
  ∧ remote_sendcmd ("SIZE " +:+ "/nope") store
    = (inl (perm_reply "550 Could not get file size."), store)
  ∧ remote_sendcmd ("MDTM " +:+ "/nope") store
    = (inl (perm_reply "550 Could not get file modification time."), store)
  ∧ remote_quit store = (inr (), store)
  ∧ (getattr "/nope" (Endpoint.mounted store)).1
    = Return (file_attributes 0 (clock (ticks (Endpoint.mounted store))))
  ∧ sessions (getattr "/nope" (Endpoint.mounted store)).2
    = sessions (Endpoint.mounted store).
Proof.
  split; [discriminate|]. split; [reflexivity|]. split; [reflexivity|].
  split; [vm_compute; reflexivity|]. split; [vm_compute; reflexivity|].
  split; [reflexivity|].
  apply (getattr_of_unknown_path "/nope" (Endpoint.mounted store) store store
           (perm_reply "550 Could not get file size.") store
           (perm_reply "550 Could not get file modification time.") store store);
    [discriminate | reflexivity | reflexivity | vm_compute; reflexivity
    | vm_compute; reflexivity | reflexivity].
Defined.

Lemma entry_size_of_field_witness :
  line_name Day.notes_line = Some "notes.txt"
  ∧ nth 4 (Py.split 8 Day.notes_line) "" = pretty 7%N
  ∧ (String.length (pretty 7%N) ≤ 4300)%nat
  ∧ ∃ e, (_ftp_list_to_files_line [] Day.notes_line (Endpoint.mounted store)).1
         = Return (dict_set [] "notes.txt" e)
         ∧ size e = Z.of_N 7 ∧ describes Day.notes_line e.
Proof.
  assert (String.length (pretty 7%N) ≤ 4300)%nat as Hlen
    by (apply Nat.leb_le; vm_compute; reflexivity).
  split; [vm_compute; reflexivity|]. split; [vm_compute; reflexivity|].
  split; [exact Hlen|].
  apply (entry_size_of_field [] Day.notes_line (Endpoint.mounted store) "notes.txt" 7);
    [vm_compute; reflexivity | left; split; [vm_compute; reflexivity | exact Hlen]].
Defined.

Lemma listed_names_are_not_blank_witness :
  ∃ files,
    (_ftp_list_to_files root_listing (Endpoint.mounted store)).1 = Return files
    ∧ "users" ∈ dict_keys files
    ∧ ∃ c r, "users" = String c r ∧ Py.isspace c = false.
Proof.
  eexists. split; [vm_compute; reflexivity|].
  assert ("users" ∈ ["users"; "notes.txt"]) as Hin by (apply elem_of_cons; by left).
  split; [exact Hin|].
  eapply (listed_names_are_not_blank root_listing (Endpoint.mounted store) _ "users");
    [vm_compute; reflexivity | exact Hin].
Defined.

Lemma readdir_lists_in_order_of_first_lines_witness :
  _dir_cache (self (Endpoint.mounted store)) !! "/" = None
  ∧ (readdir "/" (Endpoint.mounted store)).1 = Return ["."; ".."; "users"; "notes.txt"]
  ∧ ∃ w w' listing,
      remote_retrlines "LIST" w = (inr listing, w')
      ∧ ["."; ".."; "users"; "notes.txt"]
        = "." :: ".." :: reverse (remove_dups (reverse (omap line_name listing))).
Proof.
  split; [vm_compute; reflexivity|]. split; [vm_compute; reflexivity|].
  apply (readdir_lists_in_order_of_first_lines "/" (Endpoint.mounted store));
    vm_compute; reflexivity.
Defined.

Lemma unlink_removes_object_witness :
  (unlink "/data/x" (Endpoint.mounted store)).1 = Return ()
  ∧ is_Some (objects (world (Endpoint.mounted store)) !! "/data/x")
  ∧ objects (world (unlink "/data/x" (Endpoint.mounted store)).2) !! "/data/x" = None
  ∧ (∀ other, other ≠ "/data/x" →
       objects (world (unlink "/data/x" (Endpoint.mounted store)).2) !! other
       = objects (world (Endpoint.mounted store)) !! other)
  ∧ ∀ size offset,
      (read "/data/x" size offset (unlink "/data/x" (Endpoint.mounted store)).2).1
      = Raise (FuseOSError errno.ENOENT).
Proof.
  split; [vm_compute; reflexivity|].
  apply (unlink_removes_object _ _ "/data/x" (Endpoint.mounted store)).
  vm_compute; reflexivity.
Defined.

Lemma unlink_of_missing_object_witness :
  reachable (world (Endpoint.mounted store)) = true
  ∧ accepts_login (world (Endpoint.mounted store)) = true
  ∧ Endpoint.legal "root" && Endpoint.legal "fake.jwt.token" = true
  ∧ Endpoint.legal "/nope" = true
  ∧ objects (world (Endpoint.mounted store)) !! "/nope" = None
  ∧ (unlink "/nope" (Endpoint.mounted store)).1 = Raise (FuseOSError errno.ENOENT)
  ∧ objects (world (unlink "/nope" (Endpoint.mounted store)).2)
    = objects (world (Endpoint.mounted store)).
Proof.
  split; [reflexivity|]. split; [reflexivity|]. split; [reflexivity|].
  split; [reflexivity|]. split; [vm_compute; reflexivity|].
  apply (unlink_of_missing_object _ _ "/nope" (Endpoint.mounted store));
    first [reflexivity | vm_compute; reflexivity].
Defined.

Lemma write_then_getattr_size_witness :
  "/data/x" ≠ "/"
  ∧ (write "/data/x" hello 3 (Endpoint.mounted store)).1 = Return 5
  ∧ ∃ a, (getattr "/data/x" (write "/data/x" hello 3 (Endpoint.mounted store)).2).1 = Return a
         ∧ st_size a = Z.of_nat (length hello).
Proof.
  split; [discriminate|]. split; [vm_compute; reflexivity|].
  apply (write_then_getattr_size _ _ "/data/x" hello 3 (Endpoint.mounted store) 5);
    [discriminate | vm_compute; reflexivity].
Defined.

End MoreWitnesses.
